(** * pandoc-svgbob-filter: a shallow embedding of [SvgbobInline]

    The filter lives in [src/pandoc_svgbob_filter/__init__.py].  It is a
    panflute action: code blocks and links carrying the class [svgbob] are
    rendered by the external [svgbob] executable and replaced by an image
    node.  This development embeds the class method by method and checks
    the properties of the specification against it.

    Conventions of the embedding.
    - A Python [str] is a Rocq [string]; the characters of the Rocq string
      are the bytes of the UTF-8 encoding of the Python text, so that
      [data.encode("utf-8")] is the list of its characters.
    - Python objects that the filter mutates (the nodes of the document)
      live in a store indexed by locations; a method receives a location.
    - The operating system (executables on the path, existing directories,
      readable files, started processes, the debug channel) is a record that
      every effectful method threads through; an exception leaves the state
      as it was at the point of the raise. *)

From Stdlib Require Import ZArith String Ascii List.
From stdpp Require Import gmap strings list pretty.

(** ** Python string primitives used by the filter *)

Module PyStr.

(** The double quote and the backslash, by character code. *)
Definition dquote : string := String "034"%char EmptyString.
Definition backslash : ascii := "092"%char.
Definition slash : ascii := "047"%char.

(** [sep.join(parts)] *)
Fixpoint join (sep : string) (parts : list string) : string :=
  match parts with
  | [] => EmptyString
  | [p] => p
  | p :: rest => p +:+ sep +:+ join sep rest
  end.

(** [s.replace(old, new)] for one-character [old] and [new]. *)
Fixpoint replace_char (old new : ascii) (s : string) : string :=
  match s with
  | EmptyString => EmptyString
  | String c r =>
      String (if Ascii.eqb c old then new else c) (replace_char old new r)
  end.

(** [s[:n]] *)
Fixpoint prefix (n : nat) (s : string) : string :=
  match n, s with
  | S k, String c r => String c (prefix k r)
  | _, _ => EmptyString
  end.

(** [sub in s] on strings. *)
Fixpoint starts_with (p s : string) : bool :=
  match p, s with
  | EmptyString, _ => true
  | String a p', String b s' => Ascii.eqb a b && starts_with p' s'
  | String _ _, EmptyString => false
  end.

Fixpoint contains (sub s : string) : bool :=
  starts_with sub s ||
  match s with
  | EmptyString => false
  | String _ r => contains sub r
  end.

(** [c in s] for a character. *)
Fixpoint has_char (c : ascii) (s : string) : bool :=
  match s with
  | EmptyString => false
  | String x r => Ascii.eqb x c || has_char c r
  end.

(** [p] and [s] agree as far as both go. *)
Fixpoint agree (p s : string) : bool :=
  match p, s with
  | String a p', String b s' => Ascii.eqb a b && agree p' s'
  | _, _ => true
  end.

(** No occurrence of [p] can begin inside [lit], whatever follows [lit]. *)
Fixpoint begins_outside (p lit : string) : bool :=
  match lit with
  | EmptyString => true
  | String _ r => negb (agree p lit) && begins_outside p r
  end.

End PyStr.

(** ** [hashlib.sha1(bytes).hexdigest()]

  SHA-1 as in FIPS 180-4, on 32-bit words held in [Z] with the
  wrap-around written out. *)

Module Sha1.
Local Open Scope Z_scope.

Definition mask32 (x : Z) : Z := Z.land x 0xffffffff.
Definition add32 (x y : Z) : Z := mask32 (x + y).
Definition not32 (x : Z) : Z := Z.lxor x 0xffffffff.
Definition rotl (n x : Z) : Z :=
  mask32 (Z.lor (Z.shiftl x n) (Z.shiftr x (32 - n))).

(** The bytes of a text: its UTF-8 encoding. *)
Definition encode_utf8 (s : string) : list Z :=
  map (fun c => Z.of_N (N_of_ascii c)) (list_ascii_of_string s).

(** [n] bytes of [x], most significant first. *)
Definition be_bytes (n : nat) (x : Z) : list Z :=
  map (fun i => Z.land (Z.shiftr x (8 * Z.of_nat i)) 0xff) (rev (seq 0 n)).

(** Padding: a one bit, zeros up to 56 modulo 64, the bit length on 64
    bits. *)
Definition pad (msg : list Z) : list Z :=
  let len := Z.of_nat (length msg) in
  msg ++ [0x80] ++ repeat 0 (Z.to_nat ((55 - len) mod 64))
      ++ be_bytes 8 (8 * len).

Fixpoint words (bs : list Z) : list Z :=
  match bs with
  | b0 :: b1 :: b2 :: b3 :: r =>
      Z.lor (Z.shiftl b0 24)
        (Z.lor (Z.shiftl b1 16) (Z.lor (Z.shiftl b2 8) b3)) :: words r
  | _ => []
  end.

(** The message schedule: [n] more words after those of [w]. *)
Fixpoint expand (n : nat) (w : list Z) : list Z :=
  match n with
  | O => w
  | S n' =>
      let i := length w in
      let at_ k := nth (i - k) w 0 in
      expand n'
        (w ++ [rotl 1 (Z.lxor (Z.lxor (at_ 3%nat) (at_ 8%nat))
                              (Z.lxor (at_ 14%nat) (at_ 16%nat)))])
  end.

Definition f (t b c d : Z) : Z :=
  if t <? 20 then Z.lor (Z.land b c) (Z.land (not32 b) d)
  else if t <? 40 then Z.lxor (Z.lxor b c) d
  else if t <? 60 then
    Z.lor (Z.lor (Z.land b c) (Z.land b d)) (Z.land c d)
  else Z.lxor (Z.lxor b c) d.

Definition K (t : Z) : Z :=
  if t <? 20 then 0x5a827999
  else if t <? 40 then 0x6ed9eba1
  else if t <? 60 then 0x8f1bbcdc
  else 0xca62c1d6.

Record regs := Regs { ra : Z; rb : Z; rc : Z; rd : Z; re : Z }.

Definition round (r : regs) (tw : Z * Z) : regs :=
  let '(t, w) := tw in
  let temp :=
    add32 (add32 (add32 (add32 (rotl 5 (ra r)) (f t (rb r) (rc r) (rd r)))
                        (re r)) (K t)) w in
  Regs temp (ra r) (rotl 30 (rb r)) (rc r) (rd r).

Definition compress (h : regs) (block : list Z) : regs :=
  let w := expand 64 block in
  let r := fold_left round (combine (map Z.of_nat (seq 0 80)) w) h in
  Regs (add32 (ra h) (ra r)) (add32 (rb h) (rb r)) (add32 (rc h) (rc r))
       (add32 (rd h) (rd r)) (add32 (re h) (re r)).

Fixpoint blocks (n : nat) (ws : list Z) (h : regs) : regs :=
  match n with
  | O => h
  | S n' => blocks n' (skipn 16 ws) (compress h (firstn 16 ws))
  end.

Definition init : regs :=
  Regs 0x67452301 0xefcdab89 0x98badcfe 0x10325476 0xc3d2e1f0.

Definition digest (msg : list Z) : regs :=
  let ws := words (pad msg) in
  blocks (length ws / 16) ws init.

Definition hex_digit (x : Z) : ascii :=
  ascii_of_N (Z.to_N (if x <? 10 then 48 + x else 87 + x)).

(** Eight lowercase hexadecimal digits of a 32-bit word. *)
Definition hex32 (x : Z) : string :=
  string_of_list_ascii
    (map (fun i => hex_digit (Z.land (Z.shiftr x (4 * Z.of_nat i)) 0xf))
         (rev (seq 0 8))).

Definition hexdigest (msg : list Z) : string :=
  let h := digest msg in
  hex32 (ra h) +:+ hex32 (rb h) +:+ hex32 (rc h) +:+ hex32 (rd h)
    +:+ hex32 (re h).

End Sha1.

(** ** [os.path.abspath] on a POSIX system

  The filter calls the platform's [os.path.abspath]; the state of the
  embedding carries that function.  This is CPython's [posixpath]
  version, for a given working directory. *)

Module PosixPath.

Fixpoint split (sep : ascii) (s : string) : list string :=
  match s with
  | EmptyString => [EmptyString]
  | String c r =>
      if Ascii.eqb c sep then EmptyString :: split sep r
      else match split sep r with
           | h :: t => String c h :: t
           | [] => [String c EmptyString]
           end
  end.

Definition isabs (s : string) : bool := PyStr.starts_with "/" s.

Definition ends_with_sep (s : string) : bool :=
  match rev (list_ascii_of_string s) with
  | c :: _ => Ascii.eqb c PyStr.slash
  | [] => false
  end.

(** [posixpath.join(a, b)] *)
Definition join (a b : string) : string :=
  if isabs b then b
  else if String.eqb a EmptyString || ends_with_sep a then a +:+ b
  else a +:+ "/" +:+ b.

Definition is_nil {A} (l : list A) : bool :=
  match l with [] => true | _ => false end.

(** The body of the loop of [normpath] over the components. *)
Definition norm_step (initial_slashes : nat) (new_comps : list string)
    (comp : string) : list string :=
  if String.eqb comp EmptyString || String.eqb comp "." then new_comps
  else if negb (String.eqb comp "..")
          || (Nat.eqb initial_slashes 0 && is_nil new_comps)
          || (negb (is_nil new_comps)
              && String.eqb (List.last new_comps EmptyString) "..")
  then new_comps ++ [comp]
  else if negb (is_nil new_comps) then removelast new_comps
  else new_comps.

Definition normpath (path : string) : string :=
  if String.eqb path EmptyString then "."
  else
    let initial_slashes :=
      if PyStr.starts_with "/" path then
        if PyStr.starts_with "//" path
           && negb (PyStr.starts_with "///" path)
        then 2%nat else 1%nat
      else 0%nat in
    let comps :=
      fold_left (norm_step initial_slashes) (split PyStr.slash path) [] in
    let path := PyStr.join "/" comps in
    let path :=
      match initial_slashes with
      | 0%nat => path
      | 1%nat => "/" +:+ path
      | _ => "//" +:+ path
      end in
    if String.eqb path EmptyString then "." else path.

Definition abspath (cwd path : string) : string :=
  normpath (if isabs path then path else join cwd path).

End PosixPath.

(** ** Python values and exceptions *)

Module Py.

(** The values an attribute or a metadata entry can hold.  [VObj] is any
    other object that is not [None] (a float, a list, a dict), carried
    with the text that [str()] gives for it. *)
Inductive value : Type :=
| VNone
| VBool (b : bool)
| VInt (n : Z)
| VStr (s : string)
| VObj (rendered : string).

(** ["{}".format(v)] *)
Definition format (v : value) : string :=
  match v with
  | VNone => "None"
  | VBool true => "True"
  | VBool false => "False"
  | VInt n => pretty n
  | VStr s => s
  | VObj rendered => rendered
  end.

(** [v is not None] *)
Definition is_not_none (v : value) : bool :=
  match v with
  | VNone => false
  | _ => true
  end.

(** [d.get(key, dflt)] *)
Definition dict_get (d : gmap string value) (key : string) (dflt : value)
  : value :=
  match d !! key with
  | Some v => v
  | None => dflt
  end.

Inductive exn : Type :=
| AssertionError (msg : string)
| FileNotFoundError (path : string)
| FileExistsError (path : string)
| ValueError (msg : string)
| AttributeError (name : string)
| InvalidReference.

End Py.

(** ** panflute: elements and documents *)

Module Panflute.
Import Py.

Definition loc := positive.

(** The element types the filter tests for or builds, and [Other] for
    every other type of the document tree. *)
#[warnings="-register-all"]
Inductive Elem : Type :=
| CodeBlock (text : string) (identifier : string) (classes : list string)
    (attributes : gmap string value)
| Link (content : list Elem) (url title : string) (identifier : string)
    (classes : list string) (attributes : gmap string value)
| Image (content : list Elem) (url title : string) (identifier : string)
    (classes : list string) (attributes : gmap string value)
| Para (content : list Elem)
| Str (text : string)
| Other (tag : string) (content : list Elem).

Definition is_CodeBlock (e : Elem) : bool :=
  match e with CodeBlock _ _ _ _ => true | _ => false end.

Definition is_Link (e : Elem) : bool :=
  match e with Link _ _ _ _ _ _ => true | _ => false end.

(** Attribute reads; [None] when the element type has no such attribute
    (Python raises [AttributeError]). *)
Definition elem_text (e : Elem) : option string :=
  match e with
  | CodeBlock text _ _ _ => Some text
  | Str text => Some text
  | _ => None
  end.

Definition elem_url (e : Elem) : option string :=
  match e with
  | Link _ url _ _ _ _ | Image _ url _ _ _ _ => Some url
  | _ => None
  end.

Definition elem_content (e : Elem) : option (list Elem) :=
  match e with
  | Link content _ _ _ _ _ | Image content _ _ _ _ _ => Some content
  | Para content | Other _ content => Some content
  | _ => None
  end.

Definition elem_identifier (e : Elem) : option string :=
  match e with
  | CodeBlock _ identifier _ _ => Some identifier
  | Link _ _ _ identifier _ _ | Image _ _ _ identifier _ _ =>
      Some identifier
  | _ => None
  end.

Definition elem_classes (e : Elem) : option (list string) :=
  match e with
  | CodeBlock _ _ classes _ => Some classes
  | Link _ _ _ _ classes _ | Image _ _ _ _ classes _ => Some classes
  | _ => None
  end.

Definition elem_attributes (e : Elem) : option (gmap string value) :=
  match e with
  | CodeBlock _ _ _ attributes => Some attributes
  | Link _ _ _ _ _ attributes | Image _ _ _ _ _ attributes =>
      Some attributes
  | _ => None
  end.

(** The element with its list of classes replaced. *)
Definition with_classes (cls : list string) (e : Elem) : Elem :=
  match e with
  | CodeBlock text identifier _ attributes =>
      CodeBlock text identifier cls attributes
  | Link content url title identifier _ attributes =>
      Link content url title identifier cls attributes
  | Image content url title identifier _ attributes =>
      Image content url title identifier cls attributes
  | _ => e
  end.

(** A document: its metadata, and the nodes in the order in which the
    traversal hands them to an action. *)
Record Doc : Type := MkDoc {
  metadata : gmap string value;
  nodes : list loc
}.

(** [doc.get_metadata(key, dflt)]: the entry under the dotted key, the
    default when there is none. *)
Definition get_metadata (doc : Doc) (key : string) (dflt : value) : value :=
  match metadata doc !! key with
  | Some v => v
  | None => dflt
  end.

End Panflute.

(** ** The state the filter runs in, and its effects *)

Module Run.
Import Py Panflute.

(** A process started by [subprocess.Popen]: its command line, what
    [communicate] wrote to its standard input, and whether the filter has
    waited for its exit. *)
Record Proc : Type := MkProc {
  command : string;
  stdin : option string;
  waited : bool
}.

Record State : Type := MkState {
  on_path : gset string;           (* names [shutil.which] finds *)
  abspath : string -> string;      (* [os.path.abspath] *)
  existing : gset string;          (* paths for which [os.path.exists] *)
  files : gmap string string;      (* readable text files *)
  procs : list Proc;               (* processes, in the order started *)
  debug_log : list string;         (* lines given to [pf.debug] *)
  heap : gmap loc Elem;            (* the objects of the document *)
  basename : option string         (* the attribute [self.basename] *)
}.

Inductive outcome (A : Type) : Type :=
| Return (a : A)
| Raise (e : exn).
Arguments Return {A} a.
Arguments Raise {A} e.

Definition M (A : Type) : Type := State -> outcome A * State.

Definition ret {A} (a : A) : M A := fun st => (Return a, st).

Definition bind {A B} (m : M A) (k : A -> M B) : M B :=
  fun st =>
    match m st with
    | (Return a, st') => k a st'
    | (Raise e, st') => (Raise e, st')
    end.

Definition raise {A} (e : exn) : M A := fun st => (Raise e, st).

Definition gets {A} (f : State -> A) : M A := fun st => (Return (f st), st).

Definition modify (f : State -> State) : M unit :=
  fun st => (Return tt, f st).

(** An attribute read that fails with [AttributeError]. *)
Definition of_option {A} (name : string) (o : option A) : M A :=
  match o with
  | Some a => ret a
  | None => raise (AttributeError name)
  end.

End Run.

#[global] Instance run_ret : MRet Run.M := @Run.ret.
#[global] Instance run_bind : MBind Run.M := fun A B k m => Run.bind m k.

(** ** The operations of the standard library the filter calls *)

Module Os.
Import Py Panflute Run.

Definition set_existing (v : gset string) (st : State) : State :=
  MkState (on_path st) (abspath st) v (files st) (procs st) (debug_log st)
          (heap st) (basename st).

Definition set_procs (v : list Proc) (st : State) : State :=
  MkState (on_path st) (abspath st) (existing st) (files st) v (debug_log st)
          (heap st) (basename st).

Definition set_debug_log (v : list string) (st : State) : State :=
  MkState (on_path st) (abspath st) (existing st) (files st) (procs st) v
          (heap st) (basename st).

Definition set_heap (v : gmap loc Elem) (st : State) : State :=
  MkState (on_path st) (abspath st) (existing st) (files st) (procs st)
          (debug_log st) v (basename st).

Definition set_basename (v : option string) (st : State) : State :=
  MkState (on_path st) (abspath st) (existing st) (files st) (procs st)
          (debug_log st) (heap st) v.

(** [shutil.which(name)], as the truth value the filter tests. *)
Definition which (name : string) : M bool :=
  gets (fun st => bool_decide (name ∈ on_path st)).

(** [os.path.exists(path)] *)
Definition path_exists (path : string) : M bool :=
  gets (fun st => bool_decide (path ∈ existing st)).

(** [os.mkdir(path)] *)
Definition mkdir (path : string) : M unit :=
  ex ← path_exists path;
  if ex : bool then raise (FileExistsError path)
  else modify (fun st => set_existing ({[path]} ∪ existing st) st).

(** [os.path.abspath(path)] *)
Definition path_abspath (path : string) : M string :=
  gets (fun st => abspath st path).

(** [open(fn, "r", encoding="utf-8").read()] *)
Definition read_text (fn : string) : M string :=
  fs ← gets files;
  match fs !! fn with
  | Some data => mret data
  | None => raise (FileNotFoundError fn)
  end.

(** [pf.debug(msg)] *)
Definition debug (msg : string) : M unit :=
  modify (fun st => set_debug_log (debug_log st ++ [msg]) st).

(** [sp.Popen(command, shell=True, stdin=PIPE, stdout=PIPE, stderr=PIPE)]:
    the process is started and the call returns at once; the handle is the
    index of the process. *)
Definition Popen (cmd : string) : M nat :=
  n ← gets (fun st => length (procs st));
  modify (fun st => set_procs (procs st ++ [MkProc cmd None false]) st);;
  mret n.

(** [proc.communicate(input=data)]: writes [data] to the standard input
    of the process and returns when the process has exited. *)
Definition communicate (proc : nat) (input : string) : M unit :=
  modify (fun st =>
    set_procs (alter (fun p => MkProc (command p) (Some input) true) proc
                     (procs st)) st).

(** Reading the object at a location. *)
Definition deref (l : loc) : M Elem :=
  h ← gets heap;
  match h !! l with
  | Some e => mret e
  | None => raise InvalidReference
  end.

(** A new object. *)
Definition alloc (e : Elem) : M loc :=
  l ← gets (fun st => fresh (dom (heap st)));
  modify (fun st => set_heap (<[l := e]> (heap st)) st);;
  mret l.

(** [l.remove(x)] on a Python list: the first item equal to [x] is
    deleted; [None] when there is none ([ValueError]). *)
Fixpoint list_remove (x : string) (l : list string) : option (list string) :=
  match l with
  | [] => None
  | y :: r =>
      if decide (y = x) then Some r
      else match list_remove x r with
           | Some r' => Some (y :: r')
           | None => None
           end
  end.

(** [elem.classes.remove(x)]: the list of the element at [elem] is
    changed in place. *)
Definition classes_remove (elem : loc) (x : string) : M unit :=
  e ← deref elem;
  cls ← of_option "classes" (elem_classes e);
  match list_remove x cls with
  | Some cls' =>
      modify (fun st => set_heap (<[elem := with_classes cls' e]> (heap st)) st)
  | None => raise (ValueError "list.remove(x): x not in list")
  end.

(** [elem.<name>] *)
Definition get_attr {A} (name : string) (proj : Elem -> option A) (elem : loc)
  : M A :=
  e ← deref elem;
  of_option name (proj e).

End Os.

(** ** The class [SvgbobInline] *)

Module SvgbobInline.
Import Py Panflute Run Os PyStr.

(** The attributes [__init__] sets. *)
Record t : Type := Make {
  dir_to : string;
  svgbob_cmd : string
}.

Definition marker : string := "svgbob".

(** [__init__] *)
Definition init : M t :=
  let dir_to := "svg" in
  cli ← which "svgbob_cli";
  if cli : bool then mret (Make dir_to "svgbob_cli")
  else
    old ← which "svgbob";
    if old : bool then mret (Make dir_to "svgbob")
    else raise (AssertionError "svgbob or svgbob_cli is not in path").

(** The list that [get_options] joins. *)
Definition option_segments (attributes : gmap string value) (doc : Doc)
  : list string :=
  let meta_font_family := get_metadata doc "svgbob.font-family" (VStr "Arial") in
  let meta_font_size := get_metadata doc "svgbob.font-size" (VInt 14) in
  let meta_scale := get_metadata doc "svgbob.scale" (VInt 1) in
  let meta_stroke_width := get_metadata doc "svgbob.stroke-width" (VInt 2) in
  let font_family := dict_get attributes "font-family" meta_font_family in
  let font_size := dict_get attributes "font-size" meta_font_size in
  let scale := dict_get attributes "scale" meta_scale in
  let stroke_width := dict_get attributes "stroke-width" meta_stroke_width in
  [ if is_not_none font_family
    then "--font-family " +:+ dquote +:+ format font_family +:+ dquote
    else EmptyString;
    if is_not_none font_size
    then "--font-size " +:+ format font_size else EmptyString;
    if is_not_none scale
    then "--scale " +:+ format scale else EmptyString;
    if is_not_none stroke_width
    then "--stroke-width " +:+ format stroke_width else EmptyString;
    "--background " +:+ dquote +:+ "#fdf6e3" +:+ dquote ].

(** [get_options] *)
Definition get_options (attributes : gmap string value) (doc : Doc) : string :=
  join " " (option_segments attributes doc).

(** [if not os.path.exists(self.dir_to): os.mkdir(self.dir_to)] *)
Definition ensure_dir (self : t) : M unit :=
  ex ← path_exists (dir_to self);
  if ex : bool then mret tt else mkdir (dir_to self).

(** [hashlib.sha1(data.encode("utf-8")).hexdigest()[:8]] *)
Definition counter_of (data : string) : string :=
  prefix 8 (Sha1.hexdigest (Sha1.encode_utf8 data)).

(** [self.basename = "/".join([self.dir_to, str(counter)])], and the
    value read back from the attribute. *)
Definition assign_basename (self : t) (counter : string) : M string :=
  let b := join "/" [dir_to self; counter] in
  modify (set_basename (Some b));;
  mret b.

(** [os.path.abspath(".".join([self.basename, _format])).replace("\\", "/")] *)
Definition linkto_of (basename _format : string) : M string :=
  p ← path_abspath (join "." [basename; _format]);
  mret (replace_char backslash slash p).

(** [process_codeblock] *)
Definition process_codeblock (self : t) (elem : loc) (doc : Doc) : M loc :=
  ensure_dir self;;
  data ← get_attr "text" elem_text elem;
  let counter := counter_of data in
  basename ← assign_basename self counter;
  let _format := "svg" in
  linkto ← linkto_of basename _format;
  attributes ← get_attr "attributes" elem_attributes elem;
  let svgbob_option := get_options attributes doc in
  let command :=
    svgbob_cmd self +:+ " " +:+ svgbob_option +:+ " -o " +:+ linkto in
  debug command;;
  proc ← Popen command;
  communicate proc data;;
  debug ("[codeblock] generate svgbob to " +:+ linkto);;
  classes_remove elem marker;;
  classes ← get_attr "classes" elem_classes elem;
  identifier ← get_attr "identifier" elem_identifier elem;
  attributes ← get_attr "attributes" elem_attributes elem;
  alloc (Para [Image [] linkto EmptyString identifier classes attributes]).

(** The second branch of [action]: a link. *)
Definition process_link (self : t) (elem : loc) (doc : Doc) : M loc :=
  fn ← get_attr "url" elem_url elem;
  caption ← get_attr "content" elem_content elem;
  ensure_dir self;;
  data ← read_text fn;
  let counter := counter_of data in
  basename ← assign_basename self counter;
  let _format := "svg" in
  fn ← path_abspath fn;
  linkto ← linkto_of basename _format;
  attributes ← get_attr "attributes" elem_attributes elem;
  let svgbob_option := get_options attributes doc in
  let command :=
    svgbob_cmd self +:+ " " +:+ fn +:+ " " +:+ svgbob_option
      +:+ " -o " +:+ linkto in
  debug command;;
  Popen command;;
  debug ("[inline] generate svgbob from " +:+ fn +:+ " to " +:+ linkto);;
  classes_remove elem marker;;
  classes ← get_attr "classes" elem_classes elem;
  identifier ← get_attr "identifier" elem_identifier elem;
  attributes ← get_attr "attributes" elem_attributes elem;
  alloc (Image caption linkto "fig:" identifier classes attributes).

(** [x in elem.classes] *)
Definition has_class (x : string) (e : Elem) : bool :=
  match elem_classes e with
  | Some cls => bool_decide (x ∈ cls)
  | None => false
  end.

(** [action]; the result [None] is Python's [None], which the function
    returns when neither test holds. *)
Definition action (self : t) (elem : loc) (doc : Doc) : M (option loc) :=
  e ← deref elem;
  if is_CodeBlock e && has_class marker e then
    r ← process_codeblock self elem doc; mret (Some r)
  else if is_Link e && has_class marker e then
    r ← process_link self elem doc; mret (Some r)
  else mret None.

End SvgbobInline.

(** ** The host: [pf.run_filters] and [main] *)

Module Host.
Import Py Panflute Run Os.

(** One step of the traversal: the action is applied to the node, and a
    result of [None] keeps the node. *)
Definition visit (act : loc -> Doc -> M (option loc)) (doc : Doc) (node : loc)
  : M loc :=
  altered ← act node doc;
  mret (match altered with
        | Some n => n
        | None => node
        end).

Fixpoint walk (act : loc -> Doc -> M (option loc)) (doc : Doc)
    (ns : list loc) : M (list loc) :=
  match ns with
  | [] => mret []
  | n :: rest =>
      n' ← visit act doc n;
      rest' ← walk act doc rest;
      mret (n' :: rest')
  end.

(** [pf.run_filters([action], doc=doc)] *)
Definition run_filters (act : loc -> Doc -> M (option loc)) (doc : Doc)
  : M Doc :=
  ns ← walk act doc (nodes doc);
  mret (MkDoc (metadata doc) ns).

(** [main] *)
Definition main (doc : Doc) : M Doc :=
  si ← SvgbobInline.init;
  run_filters (SvgbobInline.action si) doc.

End Host.

(** ** The notions of the specification *)

Module Spec.
Import Py Panflute Run Os PyStr.

(** The artifact path of the specification: [<output-dir>/<hash>.svg],
    where the hash is the first eight hexadecimal digits of the SHA-1 of
    the UTF-8 bytes of the content. *)
Definition relative_artifact_path (output_dir data : string) : string :=
  output_dir +:+ "/"
    +:+ prefix 8 (Sha1.hexdigest (Sha1.encode_utf8 data)) +:+ ".svg".

(** The same, resolved to an absolute path with normalized separators. *)
Definition artifact_path (abspath : string -> string)
    (output_dir data : string) : string :=
  replace_char backslash slash
    (abspath (relative_artifact_path output_dir data)).

(** The four tunables. *)
Inductive tunable : Type := FontFamily | FontSize | Scale | StrokeWidth.

Definition key (t : tunable) : string :=
  match t with
  | FontFamily => "font-family"
  | FontSize => "font-size"
  | Scale => "scale"
  | StrokeWidth => "stroke-width"
  end.

Definition fixed_default (t : tunable) : value :=
  match t with
  | FontFamily => VStr "Arial"
  | FontSize => VInt 14
  | Scale => VInt 1
  | StrokeWidth => VInt 2
  end.

(** The priority of the specification: node attribute, then document
    metadata under [svgbob.<key>], then the fixed default. *)
Definition resolved (t : tunable) (attributes : gmap string value)
    (doc : Doc) : value :=
  match attributes !! key t with
  | Some v => v
  | None =>
      match metadata doc !! ("svgbob." +:+ key t) with
      | Some v => v
      | None => fixed_default t
      end
  end.

(** The option of a tunable on the command line of the renderer. *)
Definition flag (t : tunable) (v : value) : string :=
  match t with
  | FontFamily => "--" +:+ key t +:+ " " +:+ dquote +:+ format v +:+ dquote
  | _ => "--" +:+ key t +:+ " " +:+ format v
  end.

(** The name of the flag of a tunable. *)
Definition flag_name (t : tunable) : string := "--" +:+ key t.

Definition segment (t : tunable) (v : value) : string :=
  if is_not_none v then flag t v else EmptyString.

(** The place of a tunable in the list of options. *)
Definition position (t : tunable) : nat :=
  match t with
  | FontFamily => 0
  | FontSize => 1
  | Scale => 2
  | StrokeWidth => 3
  end.

Definition background : string :=
  "--background " +:+ dquote +:+ "#fdf6e3" +:+ dquote.

(** The order of the arguments of the renderer as the specification gives
    it: binary, options, the source file if any, [-o], output path. *)
Definition invocation (binary options : string) (source : option string)
    (output : string) : string :=
  join " " ([binary; options]
              ++ match source with Some fn => [fn] | None => [] end
              ++ ["-o"; output]).

(** The image of a replacement node: the node itself for a link, the
    only child of the paragraph for a code block. *)
Definition image_of (e : Elem) : option Elem :=
  match e with
  | Image _ _ _ _ _ _ => Some e
  | Para [Image content url title identifier classes attributes] =>
      Some (Image content url title identifier classes attributes)
  | _ => None
  end.

(** The state after a conversion of the node at [l]: the directory
    exists, the process [p] was started, the lines [msgs] were traced, the
    node at [l] has become [e'], and the new node [img] stands at [r]. *)
Definition converted (self : SvgbobInline.t) (st : State) (data : string)
    (p : Proc) (msgs : list string) (l : loc) (e' : Elem) (r : loc)
    (img : Elem) : State :=
  MkState (on_path st) (abspath st)
    (if bool_decide (SvgbobInline.dir_to self ∈ existing st)
     then existing st
     else {[SvgbobInline.dir_to self]} ∪ existing st)
    (files st)
    (procs st ++ [p])
    (debug_log st ++ msgs)
    (<[r := img]> (<[l := e']> (heap st)))
    (Some (SvgbobInline.dir_to self +:+ "/" +:+ SvgbobInline.counter_of data)).

(** The content a node is converted from: the text of a code block with
    the marker, the text of the file a link with the marker points to;
    nothing for any other node. *)
Definition source (st : State) (e : Elem) : option string :=
  match e with
  | CodeBlock text _ classes _ =>
      if bool_decide (SvgbobInline.marker ∈ classes) then Some text else None
  | Link _ url _ _ classes _ =>
      if bool_decide (SvgbobInline.marker ∈ classes) then files st !! url
      else None
  | _ => None
  end.

(** The url of the image of the replacement node at [r]. *)
Definition result_url (st : State) (r : loc) : option string :=
  match heap st !! r with
  | Some e =>
      match image_of e with
      | Some img => elem_url img
      | None => None
      end
  | None => None
  end.

(** The classes of the image of the replacement node at [r]. *)
Definition result_classes (st : State) (r : loc) : option (list string) :=
  match heap st !! r with
  | Some e =>
      match image_of e with
      | Some img => elem_classes img
      | None => None
      end
  | None => None
  end.

#[global] Instance tunable_eq_dec : EqDecision tunable.
Proof. solve_decision. Defined.

Definition tunables : list tunable := [FontFamily; FontSize; Scale; StrokeWidth].

End Spec.

(** ** Sample documents *)

Module Examples.
Import Py Panflute Run.

Definition self0 : SvgbobInline.t := SvgbobInline.Make "svg" "svgbob".

Definition block : Elem :=
  CodeBlock "a--b" "fig1" ["svgbob"; "wide"] ∅.

Definition link : Elem :=
  Link [Str "diagram"] "diagram.txt" EmptyString "fig2" ["svgbob"]
       {[ "font-size" := VStr "20" ]}.

Definition twice : Elem :=
  CodeBlock "a--b" "fig3" ["svgbob"; "svgbob"] ∅.

Definition twice_link : Elem :=
  Link [] "diagram.txt" EmptyString "fig4" ["svgbob"; "wide"; "svgbob"] ∅.

Definition plain : Elem := Other "Header" [Str "Title"].

Definition objects : gmap loc Elem :=
  <[1%positive := block]>
    (<[2%positive := link]>
       (<[3%positive := plain]>
          (<[4%positive := twice]> (<[5%positive := twice_link]> ∅)))).

(** A POSIX system, in [/home/user]; [svgbob] is installed, the file
    [diagram.txt] holds the text of [block]. *)
Definition st0 : State :=
  MkState {[ "svgbob" ]} (PosixPath.abspath "/home/user") ∅
          {[ "diagram.txt" := "a--b" ]} [] [] objects None.

(** The same system without a renderer. *)
Definition st_bare : State :=
  MkState ∅ (PosixPath.abspath "/home/user") ∅
          {[ "diagram.txt" := "a--b" ]} [] [] objects None.

Definition doc0 : Doc := MkDoc ∅ [1%positive; 2%positive; 3%positive].

Definition doc_scaled : Doc :=
  MkDoc {[ "svgbob.scale" := VInt 3 ]} [1%positive; 2%positive; 3%positive].

Definition doc_null : Doc :=
  MkDoc {[ "svgbob.font-size" := VNone ]} [1%positive].

End Examples.


(** ** Further notions and sample states *)

Module Shape.
Import Py Panflute Run Os PyStr.

(** The digits [hexdigest] writes. *)
Definition hex_digits : string := "0123456789abcdef".

(** A node the dispatcher passes over: neither a code block with the
    marker nor a link with the marker. *)
Definition unmarked (e : Elem) : bool :=
  negb (is_CodeBlock e && SvgbobInline.has_class SvgbobInline.marker e)
  && negb (is_Link e && SvgbobInline.has_class SvgbobInline.marker e).


(** The state after the renderer was run for a code block whose node is
    left as it is. *)
Definition rendered (self : SvgbobInline.t) (st : State) (data : string)
    (p : Proc) (msgs : list string) : State :=
  MkState (on_path st) (abspath st)
    (if bool_decide (SvgbobInline.dir_to self ∈ existing st)
     then existing st
     else {[SvgbobInline.dir_to self]} ∪ existing st)
    (files st) (procs st ++ [p]) (debug_log st ++ msgs) (heap st)
    (Some (SvgbobInline.dir_to self +:+ "/" +:+ SvgbobInline.counter_of data)).

End Shape.

Module MoreExamples.
Import Py Panflute Run.

(** Both names of the renderer are installed. *)
Definition st_both : State :=
  MkState {[ "svgbob"; "svgbob_cli" ]} (PosixPath.abspath "/home/user") ∅
          ∅ [] [] Examples.objects None.

Definition dangling_link : Elem :=
  Link [Str "lost"] "missing.txt" EmptyString "fig5" ["svgbob"] ∅.

Definition bare_block : Elem :=
  CodeBlock "a--b" "fig6" ["wide"] ∅.

Definition objects : gmap loc Elem :=
  <[6%positive := dangling_link]>
    (<[7%positive := bare_block]> Examples.objects).

Definition st1 : State :=
  MkState {[ "svgbob" ]} (PosixPath.abspath "/home/user") ∅
          {[ "diagram.txt" := "a--b" ]} [] [] objects None.

Definition doc_plain : Doc := MkDoc ∅ [3%positive; 7%positive; 3%positive].


End MoreExamples.

(** * Properties *)

Import Py Panflute Run Os PyStr SvgbobInline Host Spec.

(** ** Strings and lists *)

Lemma append_assoc (a b c : string) : (a +:+ b) +:+ c = a +:+ b +:+ c.
Proof.
  induction a as [|x a IH]; [reflexivity|].
  change (String x ((a +:+ b) +:+ c) = String x (a +:+ b +:+ c)).
  now rewrite IH.
Qed.

(** [list.remove] succeeds exactly on the lists that hold the item. *)
Lemma list_remove_is_Some (x : string) (l : list string) :
  x ∈ l -> is_Some (list_remove x l).
Proof.
  induction l as [|y l IH]; intros Hin.
  - now apply not_elem_of_nil in Hin.
  - cbn. destruct (decide (y = x)) as [->|Hne]; [eauto|].
    apply elem_of_cons in Hin as [->|Hin]; [congruence|].
    destruct (IH Hin) as [l' ->]. eauto.
Qed.

(** The items other than [x] stay, in their order. *)
Lemma list_remove_others (x : string) (l l' : list string) :
  list_remove x l = Some l' ->
  filter (fun y => y ≠ x) l' = filter (fun y => y ≠ x) l.
Proof.
  revert l'. induction l as [|y l IH]; intros l' H; [discriminate|].
  cbn in H. destruct (decide (y = x)) as [->|Hne].
  - injection H as <-. now rewrite filter_cons_False by (intros ?; congruence).
  - destruct (list_remove x l) as [r|] eqn:Hr; [|discriminate].
    injection H as <-. rewrite !filter_cons_True by assumption.
    f_equal. now apply IH.
Qed.

(** One item goes, the first one equal to [x]. *)
Lemma list_remove_split (x : string) (l l' : list string) :
  list_remove x l = Some l' ->
  exists l1 l2, l = l1 ++ x :: l2 /\ l' = l1 ++ l2 /\ x ∉ l1.
Proof.
  revert l'. induction l as [|y l IH]; intros l' H; [discriminate|].
  cbn in H. destruct (decide (y = x)) as [->|Hne].
  - injection H as <-. exists [], l. split_and!; [done..|]. apply not_elem_of_nil.
  - destruct (list_remove x l) as [r|] eqn:Hr; [|discriminate].
    injection H as <-. destruct (IH r eq_refl) as (l1 & l2 & -> & -> & Hn).
    exists (y :: l1), l2. split_and!; [done..|].
    intros [->|?]%elem_of_cons; [congruence|contradiction].
Qed.

(** ** Running the effects *)

Lemma bind_run {A B} (m : M A) (k : A -> M B) (st : State) :
  (m ≫= k) st =
  match m st with
  | (Return a, st') => k a st'
  | (Raise e, st') => (Raise e, st')
  end.
Proof. reflexivity. Qed.

Lemma ensure_dir_run (self : t) (st : State) :
  ensure_dir self st =
  (Return tt,
   set_existing (if bool_decide (dir_to self ∈ existing st)
                 then existing st else {[dir_to self]} ∪ existing st) st).
Proof.
  unfold ensure_dir, mkdir, path_exists. rewrite bind_run. cbn.
  destruct (bool_decide (dir_to self ∈ existing st)) eqn:Hex.
  - cbn. now destruct st.
  - rewrite bind_run. cbn. now rewrite Hex.
Qed.

Lemma get_attr_run {A} (name : string) (proj : Elem -> option A) (l : loc)
    (e : Elem) (a : A) (st : State) :
  heap st !! l = Some e -> proj e = Some a ->
  get_attr name proj l st = (Return a, st).
Proof.
  intros Hl Hp. unfold get_attr, deref. rewrite !bind_run. cbn.
  rewrite Hl. cbn. now rewrite Hp.
Qed.

Lemma classes_remove_run (l : loc) (x : string) (e : Elem)
    (cls cls' : list string) (st : State) :
  heap st !! l = Some e -> elem_classes e = Some cls ->
  list_remove x cls = Some cls' ->
  classes_remove l x st =
  (Return tt, set_heap (<[l := with_classes cls' e]> (heap st)) st).
Proof.
  intros Hl Hc Hr. unfold classes_remove, deref. rewrite !bind_run. cbn.
  rewrite Hl. cbn. rewrite Hc, bind_run. cbn. now rewrite Hr.
Qed.

Lemma assign_basename_run (self : t) (counter : string) (st : State) :
  assign_basename self counter st =
  (Return (dir_to self +:+ "/" +:+ counter),
   set_basename (Some (dir_to self +:+ "/" +:+ counter)) st).
Proof. reflexivity. Qed.

Lemma linkto_of_run (dir counter : string) (st : State) :
  linkto_of (dir +:+ "/" +:+ counter) "svg" st =
  (Return (replace_char backslash slash
             (abspath st (dir +:+ "/" +:+ counter +:+ ".svg"))), st).
Proof.
  unfold linkto_of, path_abspath. rewrite bind_run. cbn.
  now rewrite append_assoc, append_assoc.
Qed.

Lemma debug_run (msg : string) (st : State) :
  debug msg st = (Return tt, set_debug_log (debug_log st ++ [msg]) st).
Proof. reflexivity. Qed.

Lemma Popen_run (cmd : string) (st : State) :
  Popen cmd st =
  (Return (length (procs st)),
   set_procs (procs st ++ [MkProc cmd None false]) st).
Proof. reflexivity. Qed.

(** Waiting for the process started last. *)
Lemma communicate_run (ps : list Proc) (p : Proc) (input : string)
    (st : State) :
  procs st = ps ++ [p] ->
  communicate (length ps) input st =
  (Return tt, set_procs (ps ++ [MkProc (command p) (Some input) true]) st).
Proof.
  intros Hp. unfold communicate, modify. rewrite Hp.
  replace (length ps) with (length ps + 0) by lia.
  now rewrite alter_app_r.
Qed.

Lemma read_text_run (fn data : string) (st : State) :
  files st !! fn = Some data -> read_text fn st = (Return data, st).
Proof.
  intros Hf. unfold read_text. rewrite bind_run. cbn. now rewrite Hf.
Qed.

Lemma alloc_run (e : Elem) (st : State) :
  alloc e st =
  (Return (fresh (dom (heap st))),
   set_heap (<[fresh (dom (heap st)) := e]> (heap st)) st).
Proof. reflexivity. Qed.

(** Storing into a location that is in use leaves the set of locations in
    use as it is. *)
Lemma dom_update (h : gmap loc Elem) (l : loc) (e e' : Elem) :
  h !! l = Some e -> dom (<[l := e']> h) = dom h.
Proof. intros Hl. apply dom_insert_lookup_L. eauto. Qed.

Ltac norm :=
  cbn [set_existing set_procs set_debug_log set_heap set_basename
       on_path abspath existing files procs debug_log heap basename
       command stdin waited with_classes].

Tactic Notation "step" uconstr(lem) :=
  rewrite bind_run;
  erewrite lem
    by (norm; first [eassumption | apply lookup_insert_eq | reflexivity]);
  norm.

Lemma process_codeblock_run (self : t) (l : loc) (doc : Doc) (st : State)
    (text ident : string) (cls cls' : list string)
    (attrs : gmap string value) :
  heap st !! l = Some (CodeBlock text ident cls attrs) ->
  list_remove marker cls = Some cls' ->
  let linkto := artifact_path (abspath st) (dir_to self) text in
  let cmd := svgbob_cmd self +:+ " " +:+ get_options attrs doc
               +:+ " -o " +:+ linkto in
  let r := fresh (dom (heap st)) in
  process_codeblock self l doc st =
  (Return r,
   converted self st text (MkProc cmd (Some text) true)
     [cmd; "[codeblock] generate svgbob to " +:+ linkto]
     l (CodeBlock text ident cls' attrs)
     r (Para [Image [] linkto EmptyString ident cls' attrs])).
Proof.
  intros Hl Hr linkto cmd r. unfold process_codeblock.
  step ensure_dir_run.
  step (get_attr_run "text" elem_text l _ text).
  step assign_basename_run.
  step linkto_of_run.
  step (get_attr_run "attributes" elem_attributes l _ attrs).
  step debug_run.
  step Popen_run.
  step (communicate_run (procs st)).
  step debug_run.
  step (classes_remove_run l marker _ cls cls').
  step (get_attr_run "classes" elem_classes l _ cls').
  step (get_attr_run "identifier" elem_identifier l _ ident).
  step (get_attr_run "attributes" elem_attributes l _ attrs).
  rewrite alloc_run. norm.
  rewrite (dom_update _ _ _ _ Hl), <- app_assoc. reflexivity.
Qed.

Lemma process_link_run (self : t) (l : loc) (doc : Doc) (st : State)
    (caption : list Elem) (url title ident data : string)
    (cls cls' : list string) (attrs : gmap string value) :
  heap st !! l = Some (Link caption url title ident cls attrs) ->
  list_remove marker cls = Some cls' ->
  files st !! url = Some data ->
  let linkto := artifact_path (abspath st) (dir_to self) data in
  let fn := abspath st url in
  let cmd := svgbob_cmd self +:+ " " +:+ fn +:+ " "
               +:+ get_options attrs doc +:+ " -o " +:+ linkto in
  let r := fresh (dom (heap st)) in
  process_link self l doc st =
  (Return r,
   converted self st data (MkProc cmd None false)
     [cmd; "[inline] generate svgbob from " +:+ fn +:+ " to " +:+ linkto]
     l (Link caption url title ident cls' attrs)
     r (Image caption linkto "fig:" ident cls' attrs)).
Proof.
  intros Hl Hr Hf linkto fn cmd r. unfold process_link.
  step (get_attr_run "url" elem_url l _ url).
  step (get_attr_run "content" elem_content l _ caption).
  step ensure_dir_run.
  step (read_text_run url data).
  step assign_basename_run.
  rewrite bind_run. unfold path_abspath at 1. cbn [gets]. norm.
  step linkto_of_run.
  step (get_attr_run "attributes" elem_attributes l _ attrs).
  step debug_run.
  step Popen_run.
  step debug_run.
  step (classes_remove_run l marker _ cls cls').
  step (get_attr_run "classes" elem_classes l _ cls').
  step (get_attr_run "identifier" elem_identifier l _ ident).
  step (get_attr_run "attributes" elem_attributes l _ attrs).
  rewrite alloc_run. norm.
  rewrite (dom_update _ _ _ _ Hl), <- app_assoc. reflexivity.
Qed.

(** The two branches of [action] and its fall-through. *)
Lemma action_codeblock (self : t) (l : loc) (doc : Doc) (st : State)
    (text ident : string) (cls : list string) (attrs : gmap string value) :
  heap st !! l = Some (CodeBlock text ident cls attrs) ->
  marker ∈ cls ->
  action self l doc st =
  match process_codeblock self l doc st with
  | (Return r, st') => (Return (Some r), st')
  | (Raise e, st') => (Raise e, st')
  end.
Proof.
  intros Hl Hm. unfold action, deref.
  rewrite !bind_run. cbn [gets]. rewrite Hl. cbn [mret run_ret ret].
  cbn [is_CodeBlock has_class elem_classes andb].
  rewrite bool_decide_eq_true_2 by assumption.
  rewrite bind_run. now destruct (process_codeblock self l doc st) as [[]].
Qed.

Lemma action_link (self : t) (l : loc) (doc : Doc) (st : State)
    (caption : list Elem) (url title ident : string) (cls : list string)
    (attrs : gmap string value) :
  heap st !! l = Some (Link caption url title ident cls attrs) ->
  marker ∈ cls ->
  action self l doc st =
  match process_link self l doc st with
  | (Return r, st') => (Return (Some r), st')
  | (Raise e, st') => (Raise e, st')
  end.
Proof.
  intros Hl Hm. unfold action, deref.
  rewrite !bind_run. cbn [gets]. rewrite Hl. cbn [mret run_ret ret].
  cbn [is_CodeBlock is_Link has_class elem_classes andb].
  rewrite bool_decide_eq_true_2 by assumption.
  rewrite bind_run. now destruct (process_link self l doc st) as [[]].
Qed.

Lemma action_other (self : t) (l : loc) (doc : Doc) (st : State) (e : Elem) :
  heap st !! l = Some e ->
  is_CodeBlock e && has_class marker e = false ->
  is_Link e && has_class marker e = false ->
  action self l doc st = (Return None, st).
Proof.
  intros Hl Hc Hk. unfold action, deref.
  rewrite !bind_run. cbn [gets]. rewrite Hl. cbn [mret run_ret ret].
  now rewrite Hc, Hk.
Qed.

(** ** Occurrences of a flag in the option string *)

Lemma append_cons (c : ascii) (s r : string) :
  String c s +:+ r = String c (s +:+ r).
Proof. reflexivity. Qed.

Lemma append_nil_l (r : string) : EmptyString +:+ r = r.
Proof. reflexivity. Qed.

Lemma agree_false (p s rest : string) :
  agree p s = false -> starts_with p (s +:+ rest) = false.
Proof.
  revert s. induction p as [|a p IH]; intros [|b s] H; try discriminate.
  rewrite append_cons. cbn in *.
  destruct (Ascii.eqb a b); [|reflexivity]. cbn in *. now apply IH.
Qed.

Lemma contains_literal (p lit rest : string) :
  begins_outside p lit = true ->
  contains p (lit +:+ rest) = contains p rest.
Proof.
  induction lit as [|c lit IH]; intros H; [reflexivity|].
  cbn [begins_outside] in H. apply andb_true_iff in H as [Ha Hb].
  apply negb_true_iff in Ha.
  rewrite append_cons. cbn [contains]. rewrite <- append_cons.
  rewrite (agree_false _ _ _ Ha). cbn [orb]. now apply IH.
Qed.

Lemma starts_with_fits (p w : string) (c : ascii) (rest : string) :
  has_char c p = false ->
  starts_with p (w +:+ String c rest) = true -> starts_with p w = true.
Proof.
  revert w. induction p as [|a p IH]; intros w Hc H; [reflexivity|].
  cbn in Hc. apply orb_false_iff in Hc as [Hac Hc].
  destruct w as [|b w].
  - rewrite append_nil_l in H. cbn in H. rewrite Hac in H. discriminate.
  - rewrite append_cons in H. cbn in *.
    apply andb_true_iff in H as [-> H]. cbn. now apply IH.
Qed.

Lemma contains_value (p v : string) (c : ascii) (rest : string) :
  has_char c p = false ->
  contains p v = false ->
  contains p (v +:+ String c rest) = contains p (String c rest).
Proof.
  intros Hc. induction v as [|x v IH]; intros H; [reflexivity|].
  cbn [contains] in H. apply orb_false_iff in H as [Hs Hv].
  rewrite append_cons. cbn [contains]. rewrite <- append_cons.
  destruct (starts_with p (String x v +:+ String c rest)) eqn:E.
  - apply starts_with_fits in E; [congruence|assumption].
  - cbn [orb]. now apply IH.
Qed.

Lemma starts_with_refl (s : string) : starts_with s s = true.
Proof.
  induction s as [|y s IH]; [reflexivity|]. cbn.
  now rewrite Ascii.eqb_refl.
Qed.

Lemma contains_suffix (p a : string) : contains p (a +:+ p) = true.
Proof.
  induction a as [|x a IH].
  - rewrite append_nil_l. destruct p as [|c p]; [reflexivity|].
    cbn [contains]. now rewrite starts_with_refl.
  - rewrite append_cons. cbn [contains]. rewrite IH. apply orb_true_r.
Qed.

(** One segment and the separator after it hold no occurrence of [p]
    when the literal part cannot begin one and the value holds none. *)
Lemma contains_segment (p : string) (u : tunable) (v : value)
    (rest : string) :
  has_char " " p = false ->
  has_char "034" p = false ->
  begins_outside p " " = true ->
  begins_outside p (String "034" " ") = true ->
  begins_outside p
    (match u with
     | FontFamily => "--" +:+ key u +:+ " " +:+ dquote
     | _ => "--" +:+ key u +:+ " "
     end) = true ->
  (is_not_none v = true -> contains p (format v) = false) ->
  contains p (segment u v +:+ " " +:+ rest) = contains p rest.
Proof.
  intros Hsp Hdq Hlsp Hldq Hlit Hv. unfold segment.
  destruct (is_not_none v) eqn:Hn.
  - specialize (Hv eq_refl).
    assert (Hnum : forall lit,
      begins_outside p lit = true ->
      contains p (lit +:+ format v +:+ " " +:+ rest) = contains p rest).
    { intros lit Hl. rewrite (contains_literal _ _ _ Hl).
      change (" " +:+ rest) with (String " " rest).
      rewrite (contains_value _ _ _ _ Hsp Hv).
      exact (contains_literal p " " rest Hlsp). }
    destruct u; cbn [flag key] in *.
    + transitivity
        (contains p (("--" +:+ "font-family" +:+ " " +:+ dquote)
                       +:+ format v +:+ String "034" (" " +:+ rest))).
      { f_equal. rewrite !append_assoc. reflexivity. }
      rewrite (contains_literal _ _ _ Hlit).
      rewrite (contains_value _ _ _ _ Hdq Hv).
      exact (contains_literal p (String "034" " ") rest Hldq).
    + rewrite <- (Hnum _ Hlit). reflexivity.
    + rewrite <- (Hnum _ Hlit). reflexivity.
    + rewrite <- (Hnum _ Hlit). reflexivity.
  - rewrite append_nil_l. exact (contains_literal p " " rest Hlsp).
Qed.

(** [get_options] in terms of the values the priority resolves. *)
Lemma get_options_resolved (attributes : gmap string value) (doc : Doc) :
  get_options attributes doc =
  join " " (map (fun t => segment t (resolved t attributes doc)) tunables
              ++ [background]).
Proof. reflexivity. Qed.

(** The name of the flag of a tunable does not occur in the option string
    when the tunable resolves to [None] and the texts of the other three
    values do not hold it. *)
Lemma flag_name_absent (t : tunable) (attributes : gmap string value)
    (doc : Doc) :
  resolved t attributes doc = VNone ->
  (forall u, u <> t ->
             contains (flag_name t) (format (resolved u attributes doc))
             = false) ->
  contains (flag_name t) (get_options attributes doc) = false.
Proof.
  intros Hnone Hothers. rewrite get_options_resolved.
  unfold tunables. cbn [map app join].
  assert (Hseg : forall u,
    is_not_none (resolved u attributes doc) = true ->
    contains (flag_name t) (format (resolved u attributes doc)) = false).
  { intros u Hn. destruct (decide (u = t)) as [->|Hne]; [|now apply Hothers].
    rewrite Hnone in Hn. discriminate. }
  assert (Hown : segment t (resolved t attributes doc) = EmptyString)
    by now rewrite Hnone.
  destruct t; rewrite Hown; clear Hown Hnone Hothers;
    repeat first
      [ rewrite append_nil_l, (contains_literal _ " ") by reflexivity
      | rewrite contains_segment
          by first [ reflexivity | apply Hseg ] ];
    try reflexivity.
Qed.

Lemma last_snoc_proc (ps : list Proc) (p : Proc) : last (ps ++ [p]) = Some p.
Proof. apply last_snoc. Qed.

Lemma result_url_converted (self : t) (st : State) (data : string) (p : Proc)
    (msgs : list string) (l : loc) (e' : Elem) (r : loc) (img : Elem) :
  result_url (converted self st data p msgs l e' r img) r =
  match image_of img with
  | Some i => elem_url i
  | None => None
  end.
Proof. unfold result_url, converted. cbn [heap]. now rewrite lookup_insert_eq. Qed.

Lemma result_classes_converted (self : t) (st : State) (data : string)
    (p : Proc) (msgs : list string) (l : loc) (e' : Elem) (r : loc)
    (img : Elem) :
  result_classes (converted self st data p msgs l e' r img) r =
  match image_of img with
  | Some i => elem_classes i
  | None => None
  end.
Proof.
  unfold result_classes, converted. cbn [heap]. now rewrite lookup_insert_eq.
Qed.

(** The artifact of one conversion. *)
Lemma conversion_artifact (self : t) (l : loc) (doc : Doc) (st : State)
    (e : Elem) (data : string) :
  heap st !! l = Some e ->
  source st e = Some data ->
  exists r st' p pre,
    action self l doc st = (Return (Some r), st') /\
    result_url st' r = Some (artifact_path (abspath st) (dir_to self) data) /\
    last (procs st') = Some p /\
    command p =
      pre +:+ " -o " +:+ artifact_path (abspath st) (dir_to self) data /\
    basename st' = Some (dir_to self +:+ "/" +:+ counter_of data).
Proof.
  intros Hl Hs.
  destruct e as [text ident cls attrs|cap url title ident cls attrs| | | |];
    cbn in Hs; try discriminate; case_bool_decide as Hm; try discriminate.
  - injection Hs as ->.
    destruct (list_remove_is_Some _ _ Hm) as [cls' Hr].
    rewrite (action_codeblock _ _ _ _ _ _ _ _ Hl Hm).
    rewrite (process_codeblock_run _ _ _ _ _ _ _ _ _ Hl Hr).
    eexists _, _, _, (svgbob_cmd self +:+ " " +:+ get_options attrs doc).
    split_and!; [reflexivity| |apply last_snoc_proc| |reflexivity].
    + now rewrite result_url_converted.
    + cbn [command]. now rewrite !append_assoc.
  - destruct (list_remove_is_Some _ _ Hm) as [cls' Hr].
    rewrite (action_link _ _ _ _ _ _ _ _ _ _ Hl Hm).
    rewrite (process_link_run _ _ _ _ _ _ _ _ _ _ _ _ Hl Hr Hs).
    eexists _, _, _,
      (svgbob_cmd self +:+ " " +:+ abspath st url +:+ " "
         +:+ get_options attrs doc).
    split_and!; [reflexivity| |apply last_snoc_proc| |reflexivity].
    + now rewrite result_url_converted.
    + cbn [command]. now rewrite !append_assoc.
Qed.

(** ** The artifact path *)

(** On a POSIX system, in [/home/user]: the artifact of the text "a--b". *)
Lemma artifact_path_posix :
  artifact_path (PosixPath.abspath "/home/user") "svg" "a--b"
  = "/home/user/svg/73823f1b.svg".
Proof. vm_compute. reflexivity. Qed.

(** C1. For every source text the artifact path is
    [<output-dir>/<first 8 hex digits of the SHA-1 of the UTF-8 text>.svg]
    (made absolute, separators normalized); it is the url of the image and
    the path given to the renderer after [-o].  Two conversions of the same
    content with the same output directory give the same path, whatever
    the attributes of the nodes, the metadata of the documents and the
    kind of node (code block or link). *)
Theorem artifact_path_depends_on_content_only (self1 self2 : t)
    (doc1 doc2 : Doc) (st1 st2 : State) (l1 l2 : loc) (e1 e2 : Elem)
    (data : string) :
  heap st1 !! l1 = Some e1 ->
  heap st2 !! l2 = Some e2 ->
  source st1 e1 = Some data ->
  source st2 e2 = Some data ->
  dir_to self1 = dir_to self2 ->
  abspath st1 = abspath st2 ->
  let path :=
    replace_char backslash slash
      (abspath st1
         (dir_to self1 +:+ "/"
            +:+ prefix 8 (Sha1.hexdigest (Sha1.encode_utf8 data))
            +:+ ".svg")) in
  exists r1 st1' p1 pre1 r2 st2' p2 pre2,
    action self1 l1 doc1 st1 = (Return (Some r1), st1') /\
    action self2 l2 doc2 st2 = (Return (Some r2), st2') /\
    result_url st1' r1 = Some path /\
    result_url st2' r2 = Some path /\
    last (procs st1') = Some p1 /\ command p1 = pre1 +:+ " -o " +:+ path /\
    last (procs st2') = Some p2 /\ command p2 = pre2 +:+ " -o " +:+ path.
Proof.
  intros Hl1 Hl2 Hs1 Hs2 Hdir Habs path.
  destruct (conversion_artifact self1 l1 doc1 st1 e1 data Hl1 Hs1)
    as (r1 & st1' & p1 & pre1 & Ha1 & Hu1 & Hp1 & Hc1 & _).
  destruct (conversion_artifact self2 l2 doc2 st2 e2 data Hl2 Hs2)
    as (r2 & st2' & p2 & pre2 & Ha2 & Hu2 & Hp2 & Hc2 & _).
  rewrite <- Hdir, <- Habs in Hu2, Hc2.
  exists r1, st1', p1, pre1, r2, st2', p2, pre2.
  split_and!; assumption.
Qed.

Lemma artifact_path_depends_on_content_only_witness :
  let path :=
    replace_char backslash slash
      (abspath Examples.st0
         (dir_to Examples.self0 +:+ "/"
            +:+ prefix 8 (Sha1.hexdigest (Sha1.encode_utf8 "a--b"))
            +:+ ".svg")) in
  exists r1 st1' p1 pre1 r2 st2' p2 pre2,
    action Examples.self0 1%positive Examples.doc0 Examples.st0
      = (Return (Some r1), st1') /\
    action Examples.self0 2%positive Examples.doc_scaled Examples.st0
      = (Return (Some r2), st2') /\
    result_url st1' r1 = Some path /\
    result_url st2' r2 = Some path /\
    last (procs st1') = Some p1 /\ command p1 = pre1 +:+ " -o " +:+ path /\
    last (procs st2') = Some p2 /\ command p2 = pre2 +:+ " -o " +:+ path.
Proof.
  apply (artifact_path_depends_on_content_only
           Examples.self0 Examples.self0 Examples.doc0 Examples.doc_scaled
           Examples.st0 Examples.st0 1%positive 2%positive
           Examples.block Examples.link "a--b");
    reflexivity.
Defined.

(** ** The options *)

(** C2. Each of the four tunables is taken from the node attribute when
    the key is present, else from the metadata entry [svgbob.<key>] when
    present, else from the fixed default (font family "Arial", font size
    14, scale 1, stroke width 2), independently of the other three; the
    option string joins the options of the four values and the
    background. *)
Theorem option_resolution_priority (attributes : gmap string value)
    (doc : Doc) :
  get_options attributes doc =
  join " " (map (fun t => segment t (resolved t attributes doc)) tunables
              ++ [background]).
Proof.
  unfold get_options, option_segments, tunables.
  cbn [map app]. unfold resolved, segment, flag, key, fixed_default.
  unfold dict_get, get_metadata, background.
  reflexivity.
Qed.

(** The three cases of the priority. *)
Lemma resolved_attribute (t : tunable) (attributes : gmap string value)
    (doc : Doc) (v : value) :
  attributes !! key t = Some v -> resolved t attributes doc = v.
Proof. intros H. unfold resolved. now rewrite H. Qed.

Lemma resolved_metadata (t : tunable) (attributes : gmap string value)
    (doc : Doc) (v : value) :
  attributes !! key t = None ->
  metadata doc !! ("svgbob." +:+ key t) = Some v ->
  resolved t attributes doc = v.
Proof. intros Ha Hm. unfold resolved. now rewrite Ha, Hm. Qed.

Lemma resolved_default (t : tunable) (attributes : gmap string value)
    (doc : Doc) :
  attributes !! key t = None ->
  metadata doc !! ("svgbob." +:+ key t) = None ->
  resolved t attributes doc = fixed_default t.
Proof. intros Ha Hm. unfold resolved. now rewrite Ha, Hm. Qed.

(** C10. When a tunable resolves to [None], option resolution returns an
    option string all the same: an empty segment is joined at the place of
    the option of that tunable, the other options are as usual, and the
    background option is present.  The name of the flag does not occur in
    the option string, unless the text of another value holds it. *)
Theorem none_leaves_an_empty_segment (t : tunable)
    (attributes : gmap string value) (doc : Doc) :
  resolved t attributes doc = VNone ->
  option_segments attributes doc !! position t = Some EmptyString /\
  get_options attributes doc =
    join " " (map (fun u => if decide (u = t) then EmptyString
                            else segment u (resolved u attributes doc))
                  tunables
                ++ [background]) /\
  contains background (get_options attributes doc) = true /\
  ((forall u, u <> t ->
              contains (flag_name t) (format (resolved u attributes doc))
              = false) ->
   contains (flag_name t) (get_options attributes doc) = false).
Proof.
  intros Hnone.
  assert (Hseg : segment t (resolved t attributes doc) = EmptyString)
    by now rewrite Hnone.
  split_and!.
  - change (option_segments attributes doc)
      with (map (fun u => segment u (resolved u attributes doc)) tunables
              ++ [background]).
    rewrite <- Hseg. now destruct t.
  - rewrite get_options_resolved. unfold tunables. cbn [map].
    destruct t; repeat case_decide; try discriminate; try congruence;
      now rewrite Hseg.
  - rewrite get_options_resolved. unfold tunables. cbn [map app join].
    rewrite <- !append_assoc. apply contains_suffix.
  - now apply flag_name_absent.
Qed.

Lemma none_leaves_an_empty_segment_witness :
  option_segments ∅ Examples.doc_null !! position FontSize
    = Some EmptyString /\
  get_options ∅ Examples.doc_null =
    join " " (map (fun u => if decide (u = FontSize) then EmptyString
                            else segment u (resolved u ∅ Examples.doc_null))
                  tunables
                ++ [background]) /\
  contains background (get_options ∅ Examples.doc_null) = true /\
  ((forall u, u <> FontSize ->
              contains (flag_name FontSize)
                (format (resolved u ∅ Examples.doc_null)) = false) ->
   contains (flag_name FontSize) (get_options ∅ Examples.doc_null) = false).
Proof.
  apply (none_leaves_an_empty_segment FontSize ∅ Examples.doc_null).
  reflexivity.
Defined.

(** In that document no other value holds the name of the flag, and the
    option string is free of it. *)
Lemma null_font_size_example :
  get_options ∅ Examples.doc_null =
    "--font-family " +:+ dquote +:+ "Arial" +:+ dquote
      +:+ "  --scale 1 --stroke-width 2 --background "
      +:+ dquote +:+ "#fdf6e3" +:+ dquote /\
  contains "--font-size" (get_options ∅ Examples.doc_null) = false.
Proof. split; vm_compute; reflexivity. Qed.

(** [__init__] always sets the output directory to [svg]. *)
Lemma init_dir_to (st st' : State) (self : t) :
  init st = (Return self, st') -> dir_to self = "svg".
Proof.
  unfold init, which. rewrite bind_run. cbn [gets].
  destruct (bool_decide ("svgbob_cli" ∈ on_path st)).
  - cbn. now intros [= <- _].
  - rewrite bind_run. cbn [gets].
    destruct (bool_decide ("svgbob" ∈ on_path st)); cbn;
      [now intros [= <- _] | discriminate].
Qed.

(** C5. A code block with text "a--b", no attribute and empty document
    metadata: the option string is
    [--font-family "Arial" --font-size 14 --scale 1 --stroke-width 2
     --background "#fdf6e3"], and the output path is [svg/73823f1b.svg],
    where [73823f1b] are the first eight digits of the SHA-1 of "a--b"
    (the path is made absolute for the renderer and the image). *)
Theorem example_code_block (self : t) (l : loc) (doc : Doc) (st : State)
    (ident : string) (cls : list string) :
  dir_to self = "svg" ->
  metadata doc = ∅ ->
  heap st !! l = Some (CodeBlock "a--b" ident cls ∅) ->
  marker ∈ cls ->
  let options :=
    "--font-family " +:+ dquote +:+ "Arial" +:+ dquote
      +:+ " --font-size 14 --scale 1 --stroke-width 2 --background "
      +:+ dquote +:+ "#fdf6e3" +:+ dquote in
  let path := replace_char backslash slash (abspath st "svg/73823f1b.svg") in
  get_options ∅ doc = options /\
  prefix 8 (Sha1.hexdigest (Sha1.encode_utf8 "a--b")) = "73823f1b" /\
  exists r st' p,
    process_codeblock self l doc st = (Return r, st') /\
    basename st' = Some "svg/73823f1b" /\
    last (procs st') = Some p /\
    command p = svgbob_cmd self +:+ " " +:+ options +:+ " -o " +:+ path /\
    result_url st' r = Some path.
Proof.
  intros Hdir Hmeta Hl Hm options path.
  assert (Hopt : get_options ∅ doc = options).
  { destruct doc as [m ns]. cbn in Hmeta. subst m. reflexivity. }
  assert (Hart : artifact_path (abspath st) (dir_to self) "a--b" = path).
  { rewrite Hdir. unfold artifact_path, path.
    now vm_compute (relative_artifact_path _ _). }
  split; [exact Hopt|]. split; [vm_compute; reflexivity|].
  destruct (list_remove_is_Some _ _ Hm) as [cls' Hr].
  rewrite (process_codeblock_run _ _ _ _ _ _ _ _ _ Hl Hr).
  eexists _, _, _. split; [reflexivity|].
  rewrite Hopt, Hart. split_and!.
  - cbn [converted basename]. rewrite Hdir. f_equal.
  - apply last_snoc_proc.
  - reflexivity.
  - now rewrite result_url_converted.
Qed.

Lemma example_code_block_witness :
  let options :=
    "--font-family " +:+ dquote +:+ "Arial" +:+ dquote
      +:+ " --font-size 14 --scale 1 --stroke-width 2 --background "
      +:+ dquote +:+ "#fdf6e3" +:+ dquote in
  let path :=
    replace_char backslash slash (abspath Examples.st0 "svg/73823f1b.svg") in
  get_options ∅ Examples.doc0 = options /\
  prefix 8 (Sha1.hexdigest (Sha1.encode_utf8 "a--b")) = "73823f1b" /\
  exists r st' p,
    process_codeblock Examples.self0 1%positive Examples.doc0 Examples.st0
      = (Return r, st') /\
    basename st' = Some "svg/73823f1b" /\
    last (procs st') = Some p /\
    command p = svgbob_cmd Examples.self0 +:+ " " +:+ options
                  +:+ " -o " +:+ path /\
    result_url st' r = Some path.
Proof.
  apply (example_code_block Examples.self0 1%positive Examples.doc0
           Examples.st0 "fig1" ["svgbob"; "wide"]);
    [reflexivity | reflexivity | reflexivity | constructor].
Defined.

(** ** Start-up *)

(** C6. When neither [svgbob_cli] nor [svgbob] is on the path, [main]
    fails in [__init__] with the assertion error: the traversal does not
    start, and the state is the initial one, so that no directory was
    created, no process started and no node touched. *)
Theorem missing_renderer_aborts (doc : Doc) (st : State) :
  "svgbob_cli" ∉ on_path st ->
  "svgbob" ∉ on_path st ->
  init st = (Raise (AssertionError "svgbob or svgbob_cli is not in path"), st)
  /\ main doc st
     = (Raise (AssertionError "svgbob or svgbob_cli is not in path"), st).
Proof.
  intros Hcli Hold.
  assert (Hinit : init st =
    (Raise (AssertionError "svgbob or svgbob_cli is not in path"), st)).
  { unfold init, which. rewrite bind_run. cbn [gets].
    rewrite bool_decide_eq_false_2 by assumption.
    rewrite bind_run. cbn [gets].
    rewrite bool_decide_eq_false_2 by assumption. reflexivity. }
  split; [exact Hinit|].
  unfold main. now rewrite bind_run, Hinit.
Qed.

Lemma missing_renderer_aborts_witness :
  init Examples.st_bare
    = (Raise (AssertionError "svgbob or svgbob_cli is not in path"),
       Examples.st_bare)
  /\ main Examples.doc0 Examples.st_bare
     = (Raise (AssertionError "svgbob or svgbob_cli is not in path"),
        Examples.st_bare).
Proof.
  apply (missing_renderer_aborts Examples.doc0 Examples.st_bare);
    apply not_elem_of_empty.
Defined.

(** ** Conversion of a node *)

(** What [action] does to a node that has a source: it returns a new
    location [r]; the process [p] is started, the node at [l] loses the
    first occurrence of the marker, and the replacement stands at [r]. *)
Lemma action_converts (self : t) (l : loc) (doc : Doc) (st : State)
    (e : Elem) (data : string) :
  heap st !! l = Some e ->
  source st e = Some data ->
  let out := artifact_path (abspath st) (dir_to self) data in
  let r := fresh (dom (heap st)) in
  exists cls cls' p msgs img,
    elem_classes e = Some cls /\
    list_remove marker cls = Some cls' /\
    action self l doc st =
      (Return (Some r),
       converted self st data p msgs l (with_classes cls' e) r img) /\
    match e with
    | CodeBlock _ ident _ attrs =>
        p = MkProc (join " " [svgbob_cmd self; get_options attrs doc;
                              "-o"; out]) (Some data) true /\
        img = Para [Image [] out EmptyString ident cls' attrs]
    | Link caption url _ ident _ attrs =>
        p = MkProc (join " " [svgbob_cmd self; abspath st url;
                              get_options attrs doc; "-o"; out]) None false /\
        img = Image caption out "fig:" ident cls' attrs
    | _ => False
    end.
Proof.
  intros Hl Hs out r.
  destruct e as [text ident cls attrs|cap url title ident cls attrs| | | |];
    cbn in Hs; try discriminate; case_bool_decide as Hm; try discriminate.
  - injection Hs as ->.
    destruct (list_remove_is_Some _ _ Hm) as [cls' Hr].
    rewrite (action_codeblock _ _ _ _ _ _ _ _ Hl Hm).
    rewrite (process_codeblock_run _ _ _ _ _ _ _ _ _ Hl Hr).
    eexists cls, cls', _, _, _. split_and!; first [exact Hr | reflexivity].
  - destruct (list_remove_is_Some _ _ Hm) as [cls' Hr].
    rewrite (action_link _ _ _ _ _ _ _ _ _ _ Hl Hm).
    rewrite (process_link_run _ _ _ _ _ _ _ _ _ _ _ _ Hl Hr Hs).
    eexists cls, cls', _, _, _. split_and!; first [exact Hr | reflexivity].
Qed.

Lemma fresh_location (h : gmap loc Elem) : h !! fresh (dom h) = None.
Proof. apply not_elem_of_dom, is_fresh. Qed.

(** ** The dispatcher *)

(** C4, as the code has it.  For a node that is neither a code block
    with the marker nor a link with the marker, [action] returns [None]
    and changes nothing: the state, with the node in it, is the one before
    the call (the document is only read).  The traversal of the host keeps
    the node for a result of [None]. *)
Theorem other_nodes_are_kept (self : t) (l : loc) (doc : Doc) (st : State)
    (e : Elem) :
  heap st !! l = Some e ->
  is_CodeBlock e && has_class marker e = false ->
  is_Link e && has_class marker e = false ->
  action self l doc st = (Return None, st) /\
  visit (action self) doc l st = (Return l, st).
Proof.
  intros Hl Hc Hk.
  assert (Ha : action self l doc st = (Return None, st))
    by exact (action_other self l doc st e Hl Hc Hk).
  split; [exact Ha|].
  unfold visit. now rewrite bind_run, Ha.
Qed.

Lemma other_nodes_are_kept_witness :
  action Examples.self0 3%positive Examples.doc0 Examples.st0
    = (Return None, Examples.st0) /\
  visit (action Examples.self0) Examples.doc0 3%positive Examples.st0
    = (Return 3%positive, Examples.st0).
Proof.
  apply (other_nodes_are_kept Examples.self0 3%positive Examples.doc0
           Examples.st0 Examples.plain);
    reflexivity.
Defined.

(** The value [action] returns for such a node is not the node. *)
Lemma action_does_not_return_the_node :
  heap Examples.st0 !! 3%positive = Some Examples.plain /\
  is_CodeBlock Examples.plain && has_class marker Examples.plain = false /\
  is_Link Examples.plain && has_class marker Examples.plain = false /\
  action Examples.self0 3%positive Examples.doc0 Examples.st0
    <> (Return (Some 3%positive), Examples.st0).
Proof.
  split_and!; [reflexivity..|].
  rewrite (action_other Examples.self0 3%positive Examples.doc0 Examples.st0
             Examples.plain) by reflexivity.
  intros [=].
Qed.

(** ** The command line of the renderer *)

(** C7, as the code has it.  For a code block the command is the binary,
    the options, [-o] and the output path.  For a link it is the binary,
    the absolute path of the source file, the options, [-o] and the output
    path: the source file stands before the options.  The options end with
    the background option. *)
Theorem invocation_order (self : t) (l : loc) (doc : Doc) (st : State)
    (e : Elem) (data : string) :
  heap st !! l = Some e ->
  source st e = Some data ->
  let out := artifact_path (abspath st) (dir_to self) data in
  exists r st' p,
    action self l doc st = (Return (Some r), st') /\
    last (procs st') = Some p /\
    match e with
    | CodeBlock _ _ _ attrs =>
        command p =
          invocation (svgbob_cmd self) (get_options attrs doc) None out /\
        exists pre, get_options attrs doc = pre +:+ " " +:+ background
    | Link _ url _ _ _ attrs =>
        command p =
          join " " [svgbob_cmd self; abspath st url; get_options attrs doc;
                    "-o"; out] /\
        exists pre, get_options attrs doc = pre +:+ " " +:+ background
    | _ => False
    end.
Proof.
  intros Hl Hs out.
  destruct (action_converts self l doc st e data Hl Hs)
    as (cls & cls' & p & msgs & img & _ & _ & Ha & Hshape).
  eexists _, _, p. split; [exact Ha|]. split; [apply last_snoc_proc|].
  assert (Hbg : forall attrs,
             exists pre, get_options attrs doc = pre +:+ " " +:+ background).
  { intros attrs. rewrite get_options_resolved. unfold tunables.
    cbn [map app join]. eexists. now rewrite <- !append_assoc. }
  destruct e; try contradiction; destruct Hshape as [-> _];
    (split; [reflexivity|apply Hbg]).
Qed.

Lemma invocation_order_witness :
  exists r st' p,
    action Examples.self0 2%positive Examples.doc0 Examples.st0
      = (Return (Some r), st') /\
    last (procs st') = Some p /\
    command p =
      join " " [svgbob_cmd Examples.self0;
                abspath Examples.st0 "diagram.txt";
                get_options {[ "font-size" := VStr "20" ]} Examples.doc0;
                "-o";
                artifact_path (abspath Examples.st0)
                  (dir_to Examples.self0) "a--b"] /\
    exists pre,
      get_options {[ "font-size" := VStr "20" ]} Examples.doc0
        = pre +:+ " " +:+ background.
Proof.
  apply (invocation_order Examples.self0 2%positive Examples.doc0
           Examples.st0 Examples.link "a--b");
    reflexivity.
Defined.

(** In the link path the command is not in the order binary, options,
    source file, [-o], output path. *)
Lemma link_source_file_precedes_options :
  exists r st' p,
    action Examples.self0 2%positive Examples.doc0 Examples.st0
      = (Return (Some r), st') /\
    last (procs st') = Some p /\
    command p <>
      invocation (svgbob_cmd Examples.self0)
        (get_options {[ "font-size" := VStr "20" ]} Examples.doc0)
        (Some (abspath Examples.st0 "diagram.txt"))
        (artifact_path (abspath Examples.st0) (dir_to Examples.self0)
           "a--b").
Proof.
  destruct (action_converts Examples.self0 2%positive Examples.doc0
              Examples.st0 Examples.link "a--b" eq_refl eq_refl)
    as (cls & cls' & p & msgs & img & _ & _ & Ha & -> & _).
  eexists _, _, _. split; [exact Ha|]. split; [apply last_snoc_proc|].
  cbn [command]. vm_compute. intros [=].
Qed.

(** ** The node that is converted *)

(** Replacing the classes of a node leaves its other attributes. *)
Lemma with_classes_frame (cls' : list string) (e : Elem) :
  elem_identifier (with_classes cls' e) = elem_identifier e /\
  elem_attributes (with_classes cls' e) = elem_attributes e /\
  elem_text (with_classes cls' e) = elem_text e /\
  elem_url (with_classes cls' e) = elem_url e /\
  elem_content (with_classes cls' e) = elem_content e.
Proof. now destruct e. Qed.

(** C8, as the code has it.  A conversion changes the list of classes of
    the original node in place: the first occurrence of the marker is
    deleted from it.  The identifier, the attributes and the payload of the
    node are as before, every other object is as before, and the result is
    a new object. *)
Theorem conversion_edits_the_classes_in_place (self : t) (l : loc)
    (doc : Doc) (st : State) (e : Elem) (data : string) :
  heap st !! l = Some e ->
  source st e = Some data ->
  exists r st' cls cls' e',
    action self l doc st = (Return (Some r), st') /\
    elem_classes e = Some cls /\
    list_remove marker cls = Some cls' /\
    heap st' !! l = Some e' /\
    elem_classes e' = Some cls' /\
    elem_identifier e' = elem_identifier e /\
    elem_attributes e' = elem_attributes e /\
    elem_text e' = elem_text e /\
    elem_url e' = elem_url e /\
    elem_content e' = elem_content e /\
    heap st !! r = None /\
    is_Some (heap st' !! r) /\
    forall l', l' <> l -> l' <> r -> heap st' !! l' = heap st !! l'.
Proof.
  intros Hl Hs.
  destruct (action_converts self l doc st e data Hl Hs)
    as (cls & cls' & p & msgs & img & Hcls & Hr & Ha & _).
  pose proof (fresh_location (heap st)) as Hfresh.
  assert (Hne : fresh (dom (heap st)) <> l) by (intros E; congruence).
  destruct (with_classes_frame cls' e) as (Hi & Hat & Ht & Hu & Hc).
  eexists (fresh (dom (heap st))), _, cls, cls', (with_classes cls' e).
  split; [exact Ha|]. cbn [converted heap].
  split_and!; try assumption.
  - rewrite lookup_insert_ne by assumption. apply lookup_insert_eq.
  - destruct e; cbn in Hcls; try discriminate; reflexivity.
  - rewrite lookup_insert_eq. eauto.
  - intros l' H1 H2. now rewrite !lookup_insert_ne by congruence.
Qed.

Lemma conversion_edits_the_classes_in_place_witness :
  exists r st' cls cls' e',
    action Examples.self0 1%positive Examples.doc0 Examples.st0
      = (Return (Some r), st') /\
    elem_classes Examples.block = Some cls /\
    list_remove marker cls = Some cls' /\
    heap st' !! 1%positive = Some e' /\
    elem_classes e' = Some cls' /\
    elem_identifier e' = elem_identifier Examples.block /\
    elem_attributes e' = elem_attributes Examples.block /\
    elem_text e' = elem_text Examples.block /\
    elem_url e' = elem_url Examples.block /\
    elem_content e' = elem_content Examples.block /\
    heap Examples.st0 !! r = None /\
    is_Some (heap st' !! r) /\
    forall l', l' <> 1%positive -> l' <> r ->
               heap st' !! l' = heap Examples.st0 !! l'.
Proof.
  apply (conversion_edits_the_classes_in_place Examples.self0 1%positive
           Examples.doc0 Examples.st0 Examples.block "a--b");
    reflexivity.
Defined.

(** After the conversion of a code block, the classes of the original
    node are not the classes it had. *)
Lemma conversion_mutates_the_node :
  exists r st',
    action Examples.self0 1%positive Examples.doc0 Examples.st0
      = (Return (Some r), st') /\
    heap Examples.st0 !! 1%positive
      = Some (CodeBlock "a--b" "fig1" ["svgbob"; "wide"] ∅) /\
    heap st' !! 1%positive = Some (CodeBlock "a--b" "fig1" ["wide"] ∅) /\
    heap st' !! 1%positive <> heap Examples.st0 !! 1%positive.
Proof.
  destruct (action_converts Examples.self0 1%positive Examples.doc0
              Examples.st0 Examples.block "a--b" eq_refl eq_refl)
    as (cls & cls' & p & msgs & img & [= <-] & [= <-] & Ha & _).
  pose proof (fresh_location (heap Examples.st0)) as Hfresh.
  eexists _, _. split; [exact Ha|]. cbn [converted heap].
  assert (Hne : fresh (dom (heap Examples.st0)) <> 1%positive).
  { intros E.
    assert (H1 : heap Examples.st0 !! 1%positive = None)
      by (rewrite <- E; exact Hfresh).
    discriminate H1. }
  rewrite lookup_insert_ne by exact Hne. rewrite lookup_insert_eq.
  split_and!; [reflexivity|reflexivity|].
  intros [=].
Qed.

(** ** Waiting for the renderer *)

(** C9. The conversion starts one process.  For a code block it feeds the
    text to the process and waits for its exit ([communicate]) before it
    returns; for a link it returns with the process started and not waited
    for, and nothing was written to or read from it.  No other process is
    touched. *)
Theorem waits_for_the_renderer_in_code_blocks_only (self : t) (l : loc)
    (doc : Doc) (st : State) (e : Elem) (data : string) :
  heap st !! l = Some e ->
  source st e = Some data ->
  exists r st' p,
    action self l doc st = (Return (Some r), st') /\
    procs st' = procs st ++ [p] /\
    match e with
    | CodeBlock _ _ _ _ => waited p = true /\ stdin p = Some data
    | Link _ _ _ _ _ _ => waited p = false /\ stdin p = None
    | _ => False
    end.
Proof.
  intros Hl Hs.
  destruct (action_converts self l doc st e data Hl Hs)
    as (cls & cls' & p & msgs & img & _ & _ & Ha & Hshape).
  eexists _, _, p. split; [exact Ha|]. split; [reflexivity|].
  destruct e; try contradiction; destruct Hshape as [-> _]; now split.
Qed.

Lemma waits_for_the_renderer_in_code_blocks_only_witness :
  (exists r st' p,
     action Examples.self0 1%positive Examples.doc0 Examples.st0
       = (Return (Some r), st') /\
     procs st' = procs Examples.st0 ++ [p] /\
     waited p = true /\ stdin p = Some "a--b") /\
  (exists r st' p,
     action Examples.self0 2%positive Examples.doc0 Examples.st0
       = (Return (Some r), st') /\
     procs st' = procs Examples.st0 ++ [p] /\
     waited p = false /\ stdin p = None).
Proof.
  split.
  - apply (waits_for_the_renderer_in_code_blocks_only Examples.self0
             1%positive Examples.doc0 Examples.st0 Examples.block "a--b");
      reflexivity.
  - apply (waits_for_the_renderer_in_code_blocks_only Examples.self0
             2%positive Examples.doc0 Examples.st0 Examples.link "a--b");
      reflexivity.
Defined.

(** ** The classes of the image *)

(** The classes of the image are those of the node without the first
    occurrence of the marker: the other labels stay in their order, and
    the marker is gone when the node carried it once. *)
Lemma classes_of_the_image (self : t) (l : loc) (doc : Doc) (st : State)
    (e : Elem) (data : string) :
  heap st !! l = Some e ->
  source st e = Some data ->
  exists r st' cls cls',
    action self l doc st = (Return (Some r), st') /\
    elem_classes e = Some cls /\
    result_classes st' r = Some cls' /\
    list_remove marker cls = Some cls' /\
    filter (fun c => c ≠ marker) cls' = filter (fun c => c ≠ marker) cls /\
    (NoDup cls -> marker ∉ cls').
Proof.
  intros Hl Hs.
  destruct (action_converts self l doc st e data Hl Hs)
    as (cls & cls' & p & msgs & img & Hcls & Hr & Ha & Hshape).
  eexists _, _, cls, cls'. split; [exact Ha|]. split; [exact Hcls|].
  split; [|split; [exact Hr|split]].
  - rewrite result_classes_converted.
    destruct e; try contradiction; destruct Hshape as [_ ->]; reflexivity.
  - now apply list_remove_others.
  - intros Hnd. destruct (list_remove_split _ _ _ Hr) as (l1 & l2 & -> & -> & Hn).
    apply NoDup_app in Hnd as (_ & Hdisj & Hnd2).
    apply NoDup_cons in Hnd2 as [Hn2 _].
    intros [?|?]%elem_of_app; contradiction.
Qed.

(** C3, at a node that carries the marker twice: the image still has the
    marker among its classes, in the code-block path and in the link
    path; [list.remove] deletes one occurrence. *)
Theorem repeated_marker_stays_on_the_image :
  (exists r st',
     heap Examples.st0 !! 4%positive
       = Some (CodeBlock "a--b" "fig3" ["svgbob"; "svgbob"] ∅) /\
     action Examples.self0 4%positive Examples.doc0 Examples.st0
       = (Return (Some r), st') /\
     result_classes st' r = Some ["svgbob"]) /\
  (exists r st',
     heap Examples.st0 !! 5%positive
       = Some (Link [] "diagram.txt" EmptyString "fig4"
                    ["svgbob"; "wide"; "svgbob"] ∅) /\
     action Examples.self0 5%positive Examples.doc0 Examples.st0
       = (Return (Some r), st') /\
     result_classes st' r = Some ["wide"; "svgbob"]).
Proof.
  split.
  - destruct (classes_of_the_image Examples.self0 4%positive Examples.doc0
                Examples.st0 Examples.twice "a--b" eq_refl eq_refl)
      as (r & st' & cls & cls' & Ha & [= <-] & Hc & [= <-] & _).
    exists r, st'. split_and!; [reflexivity|exact Ha|exact Hc].
  - destruct (classes_of_the_image Examples.self0 5%positive Examples.doc0
                Examples.st0 Examples.twice_link "a--b" eq_refl eq_refl)
      as (r & st' & cls & cls' & Ha & [= <-] & Hc & [= <-] & _).
    exists r, st'. split_and!; [reflexivity|exact Ha|exact Hc].
Qed.

(** * Further properties of the filter *)

Import Shape.

Lemma list_remove_None (x : string) (l : list string) :
  x ∉ l -> list_remove x l = None.
Proof.
  induction l as [|y l IH]; intros Hn; [reflexivity|].
  apply not_elem_of_cons in Hn as [Hne Hn]. cbn.
  destruct (decide (y = x)) as [->|_]; [congruence|]. now rewrite IH.
Qed.


Lemma classes_remove_missing (l : loc) (x : string) (e : Elem)
    (cls : list string) (st : State) :
  heap st !! l = Some e -> elem_classes e = Some cls -> x ∉ cls ->
  classes_remove l x st
  = (Raise (ValueError "list.remove(x): x not in list"), st).
Proof.
  intros Hl Hc Hn. unfold classes_remove, deref. rewrite !bind_run. cbn.
  rewrite Hl. cbn. rewrite Hc, bind_run. cbn.
  now rewrite (list_remove_None _ _ Hn).
Qed.

(** ** [__init__] *)

Lemma init_returns (st : State) :
  "svgbob_cli" ∈ on_path st \/ "svgbob" ∈ on_path st ->
  init st =
  (Return (Make "svg" (if bool_decide ("svgbob_cli" ∈ on_path st)
                       then "svgbob_cli" else "svgbob")), st).
Proof.
  intros H. unfold init, which. rewrite bind_run. cbn [gets].
  case_bool_decide as Hcli; [reflexivity|].
  destruct H as [H|H]; [contradiction|].
  rewrite bind_run. cbn [gets].
  now rewrite bool_decide_eq_true_2 by assumption.
Qed.

(** X1. When a renderer is installed, [__init__] succeeds without touching
    the state; the output directory is [svg], and the binary is
    [svgbob_cli] whenever that name is on the path, also when [svgbob] is
    there too, and [svgbob] otherwise. *)
Theorem init_prefers_svgbob_cli (st : State) :
  "svgbob_cli" ∈ on_path st \/ "svgbob" ∈ on_path st ->
  init st =
  (Return (Make "svg" (if bool_decide ("svgbob_cli" ∈ on_path st)
                       then "svgbob_cli" else "svgbob")), st).
Proof.
  intros [Hcli|Hold]; unfold init, which; rewrite bind_run; cbn [gets].
  - now rewrite bool_decide_eq_true_2 by assumption.
  - case_bool_decide; [reflexivity|].
    rewrite bind_run. cbn [gets].
    now rewrite bool_decide_eq_true_2 by assumption.
Qed.

Lemma init_prefers_svgbob_cli_witness :
  init MoreExamples.st_both
  = (Return (Make "svg" "svgbob_cli"), MoreExamples.st_both).
Proof.
  apply (init_prefers_svgbob_cli MoreExamples.st_both).
  left. set_solver.
Defined.

(** ** Failures *)



(** X3. [process_codeblock] called on a code block that does not carry
    the marker raises the [ValueError] of [list.remove], but only at the
    end: the directory is created, the renderer has been run and waited
    for, both lines are traced and [self.basename] is set; the node is
    unchanged and no image is built. *)
Theorem process_codeblock_without_marker (self : t) (l : loc) (doc : Doc)
    (st : State) (text ident : string) (cls : list string)
    (attrs : gmap string value) :
  heap st !! l = Some (CodeBlock text ident cls attrs) ->
  marker ∉ cls ->
  let linkto := artifact_path (abspath st) (dir_to self) text in
  let cmd := svgbob_cmd self +:+ " " +:+ get_options attrs doc
               +:+ " -o " +:+ linkto in
  process_codeblock self l doc st =
  (Raise (ValueError "list.remove(x): x not in list"),
   rendered self st text (MkProc cmd (Some text) true)
     [cmd; "[codeblock] generate svgbob to " +:+ linkto]).
Proof.
  intros Hl Hn linkto cmd. unfold process_codeblock.
  step ensure_dir_run.
  step (get_attr_run "text" elem_text l _ text).
  step assign_basename_run.
  step linkto_of_run.
  step (get_attr_run "attributes" elem_attributes l _ attrs).
  step debug_run.
  step Popen_run.
  step (communicate_run (procs st)).
  step debug_run.
  rewrite bind_run.
  erewrite (classes_remove_missing l marker _ cls)
    by (norm; first [eassumption | reflexivity]).
  rewrite <- app_assoc. reflexivity.
Qed.

Lemma process_codeblock_without_marker_witness :
  let linkto :=
    artifact_path (abspath MoreExamples.st1) (dir_to Examples.self0) "a--b" in
  let cmd := svgbob_cmd Examples.self0 +:+ " "
               +:+ get_options ∅ Examples.doc0 +:+ " -o " +:+ linkto in
  process_codeblock Examples.self0 7%positive Examples.doc0 MoreExamples.st1
  = (Raise (ValueError "list.remove(x): x not in list"),
     rendered Examples.self0 MoreExamples.st1 "a--b"
       (MkProc cmd (Some "a--b") true)
       [cmd; "[codeblock] generate svgbob to " +:+ linkto]).
Proof.
  apply (process_codeblock_without_marker Examples.self0 7%positive
           Examples.doc0 MoreExamples.st1 "a--b" "fig6" ["wide"] ∅);
    [reflexivity|].
  apply not_elem_of_cons. split; [discriminate|apply not_elem_of_nil].
Defined.

(** ** What a conversion leaves behind *)

Ltac convert_cases e Hl Hs Hm cls' Hr :=
  destruct e as [?text ?ident ?cls ?attrs
                |?caption ?url ?title ?ident ?cls ?attrs| | | |];
  cbn in Hs; try discriminate; case_bool_decide as Hm; try discriminate;
  [ injection Hs as ->;
    destruct (list_remove_is_Some _ _ Hm) as [cls' Hr];
    rewrite (action_codeblock _ _ _ _ _ _ _ _ Hl Hm),
            (process_codeblock_run _ _ _ _ _ _ _ _ _ Hl Hr)
  | destruct (list_remove_is_Some _ _ Hm) as [cls' Hr];
    rewrite (action_link _ _ _ _ _ _ _ _ _ _ Hl Hm),
            (process_link_run _ _ _ _ _ _ _ _ _ _ _ _ Hl Hr Hs) ].

(** X4. A conversion writes two lines to the debug channel, after those
    already there: the exact command it starts, then the line
    [[codeblock] generate svgbob to <path>] for a code block, or
    [[inline] generate svgbob from <absolute source> to <path>] for a
    link. *)
Theorem conversion_traces_command_and_destination (self : t) (l : loc)
    (doc : Doc) (st : State) (e : Elem) (data : string) :
  heap st !! l = Some e ->
  source st e = Some data ->
  let out := artifact_path (abspath st) (dir_to self) data in
  exists r st' p,
    action self l doc st = (Return (Some r), st') /\
    last (procs st') = Some p /\
    debug_log st' =
      debug_log st ++
      [command p;
       match e with
       | Link _ url _ _ _ _ =>
           "[inline] generate svgbob from " +:+ abspath st url
             +:+ " to " +:+ out
       | _ => "[codeblock] generate svgbob to " +:+ out
       end].
Proof.
  intros Hl Hs out.
  convert_cases e Hl Hs Hm cls' Hr;
    (eexists _, _, _; split; [reflexivity|]; split;
       [apply last_snoc_proc|reflexivity]).
Qed.

Lemma conversion_traces_command_and_destination_witness :
  let out :=
    artifact_path (abspath Examples.st0) (dir_to Examples.self0) "a--b" in
  exists r st' p,
    action Examples.self0 2%positive Examples.doc0 Examples.st0
      = (Return (Some r), st') /\
    last (procs st') = Some p /\
    debug_log st' =
      debug_log Examples.st0 ++
      [command p;
       "[inline] generate svgbob from "
         +:+ abspath Examples.st0 "diagram.txt" +:+ " to " +:+ out].
Proof.
  apply (conversion_traces_command_and_destination Examples.self0 2%positive
           Examples.doc0 Examples.st0 Examples.link "a--b");
    reflexivity.
Defined.

(** X5. The replacement node.  For a code block it is a paragraph holding
    one image with no caption and an empty title; for a link it is an image
    with the caption of the link and the title [fig:] (the title of the
    link is dropped).  In both cases the image has the artifact path as
    url, and the identifier and the attributes of the original node. *)
Theorem replacement_node_shape (self : t) (l : loc) (doc : Doc) (st : State)
    (e : Elem) (data : string) :
  heap st !! l = Some e ->
  source st e = Some data ->
  let out := artifact_path (abspath st) (dir_to self) data in
  exists r st' cls cls',
    action self l doc st = (Return (Some r), st') /\
    elem_classes e = Some cls /\
    list_remove marker cls = Some cls' /\
    heap st' !! r =
      Some match e with
           | CodeBlock _ ident _ attrs =>
               Para [Image [] out EmptyString ident cls' attrs]
           | Link caption _ _ ident _ attrs =>
               Image caption out "fig:" ident cls' attrs
           | _ => e
           end.
Proof.
  intros Hl Hs out.
  convert_cases e Hl Hs Hm cls' Hr;
    (eexists _, _, _, cls'; split; [reflexivity|]; split; [reflexivity|];
     split; [exact Hr|]; cbn [converted heap]; apply lookup_insert_eq).
Qed.

Lemma replacement_node_shape_witness :
  let out :=
    artifact_path (abspath Examples.st0) (dir_to Examples.self0) "a--b" in
  exists r st' cls cls',
    action Examples.self0 2%positive Examples.doc0 Examples.st0
      = (Return (Some r), st') /\
    elem_classes Examples.link = Some cls /\
    list_remove marker cls = Some cls' /\
    heap st' !! r =
      Some (Image [Str "diagram"] out "fig:" "fig2" cls'
                  {[ "font-size" := VStr "20" ]}).
Proof.
  apply (replacement_node_shape Examples.self0 2%positive Examples.doc0
           Examples.st0 Examples.link "a--b");
    reflexivity.
Defined.



(** ** Option resolution *)

Lemma key_inj (t u : tunable) : key t = key u -> t = u.
Proof. destruct t, u; (reflexivity || discriminate). Qed.

(** X7. Setting the attribute of one tunable replaces the option of that
    tunable in the list that is joined and leaves the other three options
    and the background as they were. *)
Theorem attribute_overrides_one_option (t : tunable) (v : value)
    (attributes : gmap string value) (doc : Doc) :
  option_segments (<[key t := v]> attributes) doc
  = <[position t := segment t v]> (option_segments attributes doc).
Proof.
  change (option_segments (<[key t := v]> attributes) doc)
    with (map (fun u => segment u (resolved u (<[key t := v]> attributes) doc))
              tunables ++ [background]).
  change (option_segments attributes doc)
    with (map (fun u => segment u (resolved u attributes doc)) tunables
            ++ [background]).
  assert (Hsame : resolved t (<[key t := v]> attributes) doc = v).
  { unfold resolved. now rewrite lookup_insert_eq. }
  assert (Hother : forall u, u <> t ->
            resolved u (<[key t := v]> attributes) doc
            = resolved u attributes doc).
  { intros u Hne. unfold resolved. rewrite lookup_insert_ne; [reflexivity|].
    intros E. apply Hne. symmetry. now apply key_inj. }
  unfold tunables. cbn [map app].
  destruct t; rewrite Hsame, !Hother by discriminate; reflexivity.
Qed.

(** X8. The option string depends on nothing but the four attribute keys
    and the four metadata keys: two nodes and two documents that agree on
    them get the same options, whatever else their attributes and metadata
    hold. *)
Theorem options_read_eight_keys_only (attrs1 attrs2 : gmap string value)
    (doc1 doc2 : Doc) :
  (forall t, attrs1 !! key t = attrs2 !! key t) ->
  (forall t, metadata doc1 !! ("svgbob." +:+ key t)
             = metadata doc2 !! ("svgbob." +:+ key t)) ->
  get_options attrs1 doc1 = get_options attrs2 doc2.
Proof.
  intros Ha Hm. rewrite !get_options_resolved. do 2 f_equal.
  apply map_ext. intros t. unfold resolved. now rewrite Ha, Hm.
Qed.

Lemma options_read_eight_keys_only_witness :
  get_options {[ "font-size" := VStr "20"; "width" := VStr "80%" ]}
    (MkDoc {[ "title" := VStr "Notes" ]} [])
  = get_options {[ "font-size" := VStr "20" ]} (MkDoc ∅ [1%positive]).
Proof.
  apply (options_read_eight_keys_only
           {[ "font-size" := VStr "20"; "width" := VStr "80%" ]}
           {[ "font-size" := VStr "20" ]}
           (MkDoc {[ "title" := VStr "Notes" ]} []) (MkDoc ∅ [1%positive]));
    intros []; reflexivity.
Defined.

(** X9. A metadata default is dead once the node sets the attribute:
    changing [svgbob.<key>] in the document changes nothing for a node
    that has the attribute [<key>]. *)
Theorem attribute_shadows_metadata (t : tunable) (v : value)
    (attributes : gmap string value) (doc : Doc) :
  is_Some (attributes !! key t) ->
  get_options attributes
    (MkDoc (<["svgbob." +:+ key t := v]> (metadata doc)) (nodes doc))
  = get_options attributes doc.
Proof.
  intros [a Ha]. rewrite !get_options_resolved. do 2 f_equal.
  apply map_ext. intros u. unfold resolved. cbn [metadata].
  destruct (decide (u = t)) as [->|Hne]; [now rewrite Ha|].
  rewrite lookup_insert_ne; [reflexivity|].
  intros E. apply Hne. symmetry. apply key_inj.
  now apply (inj (String.append "svgbob.")) in E.
Qed.

Lemma attribute_shadows_metadata_witness :
  get_options {[ "font-size" := VStr "20" ]}
    (MkDoc (<["svgbob." +:+ key FontSize := VInt 9]>
              (metadata Examples.doc_scaled)) (nodes Examples.doc_scaled))
  = get_options {[ "font-size" := VStr "20" ]} Examples.doc_scaled.
Proof.
  apply (attribute_shadows_metadata FontSize (VInt 9)
           {[ "font-size" := VStr "20" ]} Examples.doc_scaled).
  exists (VStr "20"). reflexivity.
Defined.

(** ** The file name *)

Lemma hex_digit_in_range (y : Z) :
  has_char (Sha1.hex_digit (Z.land y 0xf)) hex_digits = true.
Proof.
  change 0xf%Z with (Z.ones 4). rewrite Z.land_ones by lia.
  pose proof (Z.mod_pos_bound y (2 ^ 4) ltac:(lia)) as Hb.
  remember (y mod 2 ^ 4)%Z as d eqn:Hd. clear Hd.
  assert (Hcases : (d = 0 \/ d = 1 \/ d = 2 \/ d = 3 \/ d = 4 \/ d = 5 \/
                   d = 6 \/ d = 7 \/ d = 8 \/ d = 9 \/ d = 10 \/ d = 11 \/
                   d = 12 \/ d = 13 \/ d = 14 \/ d = 15)%Z) by lia.
  repeat (destruct Hcases as [->|Hcases]; [reflexivity|]).
  now subst d.
Qed.

Lemma counter_of_shape (data : string) :
  exists x : Z,
    counter_of data =
    string_of_list_ascii
      (map (fun i => Sha1.hex_digit
                       (Z.land (Z.shiftr x (4 * Z.of_nat i)) 0xf))
           [7; 6; 5; 4; 3; 2; 1; 0]%nat).
Proof.
  exists (Sha1.ra (Sha1.digest (Sha1.encode_utf8 data))). reflexivity.
Qed.

(** X10. The stem of the file name is always eight characters long, each
    one of [0123456789abcdef], whatever the content. *)
Theorem counter_is_eight_hex_digits (data : string) :
  String.length (counter_of data) = 8 /\
  forall c, has_char c (counter_of data) = true ->
            has_char c hex_digits = true.
Proof.
  destruct (counter_of_shape data) as [x ->]. split; [reflexivity|].
  intros c. cbn [map string_of_list_ascii has_char].
  rewrite !orb_true_iff.
  intros H. repeat (destruct H as [H|H];
    [apply Ascii.eqb_eq in H; subst c; apply hex_digit_in_range|]).
  discriminate H.
Qed.

Lemma replace_char_removes (old new : ascii) (s : string) :
  old <> new -> has_char old (replace_char old new s) = false.
Proof.
  intros Hne. induction s as [|c s IH]; [reflexivity|].
  cbn [replace_char has_char]. rewrite IH, orb_false_r.
  destruct (Ascii.eqb c old) eqn:E.
  - apply Ascii.eqb_neq. congruence.
  - exact E.
Qed.

(** X11. Whatever [os.path.abspath] returns, the url of the image and the
    path after [-o] hold no backslash. *)
Theorem image_url_has_no_backslash (self : t) (l : loc) (doc : Doc)
    (st : State) (e : Elem) (data : string) :
  heap st !! l = Some e ->
  source st e = Some data ->
  exists r st' url p pre,
    action self l doc st = (Return (Some r), st') /\
    result_url st' r = Some url /\
    last (procs st') = Some p /\
    command p = pre +:+ " -o " +:+ url /\
    has_char backslash url = false.
Proof.
  intros Hl Hs.
  destruct (conversion_artifact self l doc st e data Hl Hs)
    as (r & st' & p & pre & Ha & Hu & Hp & Hc & _).
  eexists r, st', _, p, pre. split_and!; try eassumption.
  apply replace_char_removes. discriminate.
Qed.

Lemma image_url_has_no_backslash_witness :
  exists r st' url p pre,
    action Examples.self0 1%positive Examples.doc0 Examples.st0
      = (Return (Some r), st') /\
    result_url st' r = Some url /\
    last (procs st') = Some p /\
    command p = pre +:+ " -o " +:+ url /\
    has_char backslash url = false.
Proof.
  apply (image_url_has_no_backslash Examples.self0 1%positive Examples.doc0
           Examples.st0 Examples.block "a--b");
    reflexivity.
Defined.

(** ** The whole run *)

Lemma unmarked_split (e : Elem) :
  unmarked e = true ->
  is_CodeBlock e && has_class marker e = false /\
  is_Link e && has_class marker e = false.
Proof.
  unfold unmarked. intros [H1 H2]%andb_true_iff.
  now apply negb_true_iff in H1, H2.
Qed.

Lemma visit_unmarked (self : t) (doc : Doc) (st : State) (n : loc)
    (e : Elem) :
  heap st !! n = Some e -> unmarked e = true ->
  visit (action self) doc n st = (Return n, st).
Proof.
  intros Hn [Hc Hk]%unmarked_split. unfold visit.
  now rewrite bind_run, (action_other self n doc st e Hn Hc Hk).
Qed.

Lemma walk_unmarked (self : t) (doc : Doc) (st : State) (ns : list loc) :
  Forall (fun n => exists e, heap st !! n = Some e /\ unmarked e = true) ns ->
  walk (action self) doc ns st = (Return ns, st).
Proof.
  induction 1 as [|n ns (e & Hn & Hu) _ IH]; [reflexivity|].
  cbn [walk]. rewrite bind_run, (visit_unmarked self doc st n e Hn Hu).
  now rewrite bind_run, IH.
Qed.


(** X12. With a renderer installed, a document none of whose nodes is a
    marked code block or a marked link goes through [main] unchanged, and
    the run leaves no trace: no directory, no process, no debug line, no
    node touched. *)
Theorem plain_document_passes_through (doc : Doc) (st : State) :
  "svgbob_cli" ∈ on_path st \/ "svgbob" ∈ on_path st ->
  Forall (fun n => exists e, heap st !! n = Some e /\ unmarked e = true)
         (nodes doc) ->
  main doc st = (Return doc, st).
Proof.
  intros Hpath Hns. unfold main, run_filters.
  rewrite bind_run, (init_returns st Hpath).
  rewrite bind_run, (walk_unmarked _ doc st (nodes doc) Hns).
  now destruct doc.
Qed.

Lemma plain_document_passes_through_witness :
  main MoreExamples.doc_plain MoreExamples.st1
  = (Return MoreExamples.doc_plain, MoreExamples.st1).
Proof.
  apply (plain_document_passes_through MoreExamples.doc_plain
           MoreExamples.st1).
  - right. set_solver.
  - repeat constructor.
    + exists Examples.plain. split; reflexivity.
    + exists MoreExamples.bare_block. split; reflexivity.
    + exists Examples.plain. split; reflexivity.
Defined.



(** ** Classes and repeated content *)

(** X14. The classes of the image are the classes of the node less one
    occurrence of the marker: the node's classes are a rearrangement of
    the marker followed by the image's classes, so the image has exactly
    one class fewer. *)
Theorem image_has_one_marker_fewer (self : t) (l : loc) (doc : Doc)
    (st : State) (e : Elem) (data : string) :
  heap st !! l = Some e ->
  source st e = Some data ->
  exists r st' cls cls',
    action self l doc st = (Return (Some r), st') /\
    elem_classes e = Some cls /\
    result_classes st' r = Some cls' /\
    cls ≡ₚ marker :: cls' /\
    length cls = S (length cls').
Proof.
  intros Hl Hs.
  destruct (classes_of_the_image self l doc st e data Hl Hs)
    as (r & st' & cls & cls' & Ha & Hc & Hres & Hr & _).
  exists r, st', cls, cls'. split_and!; try assumption.
  - destruct (list_remove_split _ _ _ Hr) as (l1 & l2 & -> & -> & _).
    symmetry. apply Permutation_middle.
  - destruct (list_remove_split _ _ _ Hr) as (l1 & l2 & -> & -> & _).
    rewrite !length_app. cbn. lia.
Qed.

Lemma image_has_one_marker_fewer_witness :
  exists r st' cls cls',
    action Examples.self0 5%positive Examples.doc0 Examples.st0
      = (Return (Some r), st') /\
    elem_classes Examples.twice_link = Some cls /\
    result_classes st' r = Some cls' /\
    cls ≡ₚ marker :: cls' /\
    length cls = S (length cls').
Proof.
  apply (image_has_one_marker_fewer Examples.self0 5%positive Examples.doc0
           Examples.st0 Examples.twice_link "a--b");
    reflexivity.
Defined.

Lemma action_starts_process (self : t) (l : loc) (doc : Doc) (st : State)
    (e : Elem) (data : string) :
  heap st !! l = Some e ->
  source st e = Some data ->
  exists p pre msgs e' img,
    action self l doc st =
      (Return (Some (fresh (dom (heap st)))),
       converted self st data p msgs l e' (fresh (dom (heap st))) img) /\
    command p =
      pre +:+ " -o " +:+ artifact_path (abspath st) (dir_to self) data.
Proof.
  intros Hl Hs.
  convert_cases e Hl Hs Hm cls' Hr.
  - eexists _, (svgbob_cmd self +:+ " " +:+ get_options attrs doc), _, _, _.
    split; [reflexivity|]. cbn [command]. now rewrite !append_assoc.
  - eexists _, (svgbob_cmd self +:+ " " +:+ abspath st url +:+ " "
                  +:+ get_options attrs doc), _, _, _.
    split; [reflexivity|]. cbn [command]. now rewrite !append_assoc.
Qed.

Lemma source_converted (self : t) (st : State) (data : string) (p : Proc)
    (msgs : list string) (l : loc) (e' : Elem) (r : loc) (img e : Elem) :
  source (converted self st data p msgs l e' r img) e = source st e.
Proof. now destruct e. Qed.

(** X15. There is no cache: two nodes with the same content, converted
    one after the other, start the renderer twice, with the same output
    path, also though the directory and the path are the same. *)
Theorem same_content_is_rendered_again (self : t) (doc : Doc) (st : State)
    (l1 l2 : loc) (e1 e2 : Elem) (data : string) :
  l1 <> l2 ->
  heap st !! l1 = Some e1 ->
  heap st !! l2 = Some e2 ->
  source st e1 = Some data ->
  source st e2 = Some data ->
  let out := artifact_path (abspath st) (dir_to self) data in
  exists r1 st1 r2 st2 p1 pre1 p2 pre2,
    action self l1 doc st = (Return (Some r1), st1) /\
    action self l2 doc st1 = (Return (Some r2), st2) /\
    procs st2 = procs st ++ [p1; p2] /\
    command p1 = pre1 +:+ " -o " +:+ out /\
    command p2 = pre2 +:+ " -o " +:+ out.
Proof.
  intros Hne Hl1 Hl2 Hs1 Hs2 out.
  destruct (action_starts_process self l1 doc st e1 data Hl1 Hs1)
    as (p1 & pre1 & msgs1 & e1' & img1 & Ha1 & Hc1).
  set (st1 := converted self st data p1 msgs1 l1 e1'
                (fresh (dom (heap st))) img1) in *.
  assert (Hl2' : heap st1 !! l2 = Some e2).
  { unfold st1. cbn [converted heap].
    rewrite !lookup_insert_ne; [assumption|congruence|].
    intros E. pose proof (fresh_location (heap st)) as Hf.
    rewrite E in Hf. congruence. }
  assert (Hs2' : source st1 e2 = Some data)
    by (unfold st1; now rewrite source_converted).
  destruct (action_starts_process self l2 doc st1 e2 data Hl2' Hs2')
    as (p2 & pre2 & msgs2 & e2' & img2 & Ha2 & Hc2).
  eexists _, st1, _, _, p1, pre1, p2, pre2.
  split; [exact Ha1|]. split; [exact Ha2|].
  split_and!; [|exact Hc1|exact Hc2].
  cbn [converted procs]. unfold st1. cbn [converted procs].
  now rewrite <- app_assoc.
Qed.

Lemma same_content_is_rendered_again_witness :
  let out :=
    artifact_path (abspath Examples.st0) (dir_to Examples.self0) "a--b" in
  exists r1 st1 r2 st2 p1 pre1 p2 pre2,
    action Examples.self0 1%positive Examples.doc0 Examples.st0
      = (Return (Some r1), st1) /\
    action Examples.self0 2%positive Examples.doc0 st1
      = (Return (Some r2), st2) /\
    procs st2 = procs Examples.st0 ++ [p1; p2] /\
    command p1 = pre1 +:+ " -o " +:+ out /\
    command p2 = pre2 +:+ " -o " +:+ out.
Proof.
  apply (same_content_is_rendered_again Examples.self0 Examples.doc0
           Examples.st0 1%positive 2%positive Examples.block Examples.link
           "a--b");
    [discriminate | reflexivity..].
Defined.

(** ** A second visit *)

Lemma list_remove_NoDup (x : string) (l l' : list string) :
  NoDup l -> list_remove x l = Some l' -> x ∉ l'.
Proof.
  intros Hnd Hr. destruct (list_remove_split _ _ _ Hr) as (l1 & l2 & -> & -> & Hn).
  apply NoDup_app in Hnd as (_ & _ & Hnd2).
  apply NoDup_cons in Hnd2 as [Hn2 _].
  intros [?|?]%elem_of_app; contradiction.
Qed.

(** X16. The replacement node is never converted again: whatever classes
    the image carries, also the marker, [action] passes over the node it
    has just returned, since it is a paragraph or an image. *)
Theorem replacement_is_passed_over (self : t) (l : loc) (doc : Doc)
    (st : State) (e : Elem) (data : string) :
  heap st !! l = Some e ->
  source st e = Some data ->
  exists r st',
    action self l doc st = (Return (Some r), st') /\
    forall self' doc', action self' r doc' st' = (Return None, st').
Proof.
  intros Hl Hs.
  convert_cases e Hl Hs Hm cls' Hr;
    (eexists _, _; split; [reflexivity|]; intros self' doc';
     eapply action_other;
       [cbn [converted heap]; apply lookup_insert_eq
       |reflexivity|reflexivity]).
Qed.

Lemma replacement_is_passed_over_witness :
  exists r st',
    action Examples.self0 4%positive Examples.doc0 Examples.st0
      = (Return (Some r), st') /\
    forall self' doc', action self' r doc' st' = (Return None, st').
Proof.
  apply (replacement_is_passed_over Examples.self0 4%positive Examples.doc0
           Examples.st0 Examples.twice "a--b");
    reflexivity.
Defined.

(** X17. The original node, once converted, is passed over on a second
    visit when its classes held no duplicate: the marker is gone from it,
    and [action] returns [None] for it without any effect. *)
Theorem converted_node_is_passed_over (self : t) (l : loc) (doc : Doc)
    (st : State) (e : Elem) (data : string) (cls : list string) :
  heap st !! l = Some e ->
  source st e = Some data ->
  elem_classes e = Some cls ->
  NoDup cls ->
  exists r st',
    action self l doc st = (Return (Some r), st') /\
    forall self' doc', action self' l doc' st' = (Return None, st').
Proof.
  intros Hl Hs Hcls Hnd.
  destruct (action_converts self l doc st e data Hl Hs)
    as (cls0 & cls' & p & msgs & img & Hcls0 & Hr & Ha & _).
  assert (cls0 = cls) as -> by congruence.
  pose proof (list_remove_NoDup _ _ _ Hnd Hr) as Hgone.
  eexists _, _. split; [exact Ha|]. intros self' doc'.
  assert (Hne : fresh (dom (heap st)) <> l).
  { intros E. pose proof (fresh_location (heap st)) as Hf.
    rewrite E in Hf. congruence. }
  eapply action_other.
  - cbn [converted heap]. rewrite lookup_insert_ne by exact Hne.
    apply lookup_insert_eq.
  - destruct e; cbn in Hcls; try discriminate; try reflexivity.
    injection Hcls as ->. cbn. now rewrite bool_decide_eq_false_2.
  - destruct e; cbn in Hcls; try discriminate; try reflexivity.
    injection Hcls as ->. cbn. now rewrite bool_decide_eq_false_2.
Qed.

Lemma converted_node_is_passed_over_witness :
  exists r st',
    action Examples.self0 1%positive Examples.doc0 Examples.st0
      = (Return (Some r), st') /\
    forall self' doc',
      action self' 1%positive doc' st' = (Return None, st').
Proof.
  apply (converted_node_is_passed_over Examples.self0 1%positive
           Examples.doc0 Examples.st0 Examples.block "a--b"
           ["svgbob"; "wide"]);
    [reflexivity | reflexivity | reflexivity | ].
  apply NoDup_cons. split.
  - apply not_elem_of_cons. split; [discriminate|apply not_elem_of_nil].
  - apply NoDup_singleton.
Defined.
